(** * codeway: the Code Way analysis command-line tool

    A shallow embedding of [src/codeway/codeway.py] and the properties of
    its request orchestration: credential lookup, reading of the framework
    document and of the code files, payload assembly, the single call to
    the Claude API and the rendering of the answer.

    The program is effectful.  Everything it observes (the environment,
    the file system, the Anthropic SDK) is gathered in a [World]; everything
    it does (printing, opening files, creating the client, sending the
    request) is appended to a log of [event]s, in program order.  A
    computation is a log together with either a returned value or the
    status passed to [sys.exit].

    Conventions of the model:
    - a run starts from the parsed command line, [Args]; what [argparse]
      does with a command line it rejects, or with [--help], happens
      before any statement modelled here;
    - standard output and the diagnostic stream are the sequences of the
      strings given to [print], one element for each call;
    - paths are POSIX paths. *)

From Stdlib Require Import String Ascii List ZArith Lia Bool Arith.
From Stdlib Require Import DecimalString.
Import ListNotations.
Open Scope string_scope.
Open Scope list_scope.

(** ** Python strings

    A Python [str] is modelled by a Rocq [string], one [ascii] for each
    character.  The diagnostics of the source hold a warning sign that is
    not ASCII; it is kept as written and plays no part in any property. *)
Module Py.

(** The newline character, ["\n"] in the source. *)
Definition nl : string := String (ascii_of_nat 10) EmptyString.

(** [not s] on an object that is [None] or a [str]. *)
Definition truthy (o : option string) : bool :=
  match o with
  | None => false
  | Some s => negb (String.eqb s "")
  end.

(** [f"{n}"] for an [int]. *)
Definition str_of_int (z : Z) : string := NilZero.string_of_int (Z.to_int z).

(** [f"{n}"] for a counter, an [int] that is never negative. *)
Definition str_of_nat (n : nat) : string := NilZero.string_of_uint (Nat.to_uint n).

(** [s.lower()], on the letters A to Z. *)
Definition lower_char (c : ascii) : ascii :=
  let n := nat_of_ascii c in
  if (65 <=? n)%nat && (n <=? 90)%nat then ascii_of_nat (n + 32) else c.

Fixpoint lower (s : string) : string :=
  match s with
  | EmptyString => EmptyString
  | String c r => String (lower_char c) (lower r)
  end.

(** [needle in hay]. *)
Fixpoint contains (needle hay : string) : bool :=
  String.prefix needle hay ||
  match hay with
  | EmptyString => false
  | String _ r => contains needle r
  end.

(** [sep.join(l)]. *)
Fixpoint join (sep : string) (l : list string) : string :=
  match l with
  | [] => ""
  | [x] => x
  | x :: r => (x ++ sep ++ join sep r)%string
  end.

(** [s[:n]]. *)
Definition take (n : nat) (s : string) : string := String.substring 0 n s.

(** [s[i:]]. *)
Definition drop (i : nat) (s : string) : string :=
  String.substring i (String.length s) s.

(** [s.rfind(c)] for a single character: the last index of [c], or [-1]. *)
Fixpoint rfind (c : ascii) (s : string) : Z :=
  match s with
  | EmptyString => (-1)%Z
  | String a r =>
      let k := rfind c r in
      if (0 <=? k)%Z then (k + 1)%Z
      else if Ascii.eqb a c then 0%Z else (-1)%Z
  end.

(** [os.path.basename] (posixpath): [i = p.rfind('/') + 1; return p[i:]]. *)
Definition basename (p : string) : string :=
  let i := (rfind "/"%char p + 1)%Z in
  drop (Z.to_nat i) p.

End Py.
Import Py.

(** ** The Anthropic SDK, as the program uses it *)

(** The client object built by [Anthropic(api_key=...)]. *)
Record Anthropic := { client_api_key : string }.

(** The keyword arguments of [client.messages.create]. *)
Record api_args := {
  arg_model : string;
  arg_max_tokens : Z;
  arg_messages : list (string * string);   (* role, content *)
  arg_system : string
}.

(** A content block of a response: the program reads [block.type], and
    [block.text] of a block whose type is ['text']. *)
Record block := { block_type : string; block_text : string }.

(** The response object, by what the source reads of it: [message.content]
    first, then, when that is not a list with elements, whether there is a
    [text] attribute.  The SDK's [Message] carries a list of content blocks
    in [content] and has no [text] attribute; with a list that is not empty
    the first arm of the source is taken, with the empty list the last one.
    The other shapes are of objects that are no [Message]: one that has a
    [content] attribute that is not a list with elements and a [text]
    attribute (its value may be [None]); one that has such a [content]
    attribute and no [text] attribute; and one that has no [content]
    attribute at all, on which [message.content] raises an
    [AttributeError] that formats to [str_e]. *)
Inductive message_shape :=
| ContentBlocks (content : list block)
| BareText (text : option string)
| Unrecognized
| NoContent (str_e : string).

Record message := { shape : message_shape; message_str : string }.

(** What [client.messages.create] does: it returns a message or raises.
    The four exception arms of the source are kept apart; each exception
    carries the text it formats to.  An [APIStatusError] carries its
    [status_code] and [response], the text [str(e.response)] that the source
    prints and searches: the text of the HTTP response object, not of the
    body it holds. *)
Inductive api_result :=
| Answer (m : message)
| RaiseAPIConnectionError (str_e : string)
| RaiseAPIStatusError (status_code : Z) (response : string)
| RaiseAnthropicError (str_e : string)
| RaiseException (str_e : string).

(** An [APIStatusError] as the SDK raises it: the status and the reason
    phrase of the HTTP response, and the error detail the server sent in
    the body. *)
Record status_error := {
  err_status : Z;
  err_reason : string;
  err_detail : string
}.

(** [str(e.response)]: the response object of the SDK formats to its
    status and reason phrase, [<Response [400 Bad Request]>]; the body is
    no part of it. *)
Definition str_response (e : status_error) : string :=
  ("<Response [" ++ str_of_int (err_status e) ++ " " ++ err_reason e ++ "]>")%string.

(** What the source sees of a status error. *)
Definition raise_status_error (e : status_error) : api_result :=
  RaiseAPIStatusError (err_status e) (str_response e).

(** What [open(filepath, 'r', encoding='utf-8')] followed by [f.read()]
    does. *)
Inductive read_result :=
| Content (s : string)
| RaiseFileNotFoundError
| RaiseReadException (str_e : string).

(** ** The world and the log *)

Record World := {
  environ : string -> option string;                     (* os.environ.get *)
  open_read : string -> read_result;
  Anthropic_new : string -> Anthropic + string;          (* client, or str(e) *)
  messages_create : Anthropic -> api_args -> api_result;
  CODEWAY_PROMPT_FILENAME : string   (* <dir of the module>/prompts/codeway.md *)
}.

Inductive event :=
| Stdout (line : string)                 (* print(line) *)
| Stderr (line : string)                 (* print(line, file=sys.stderr) *)
| EnvGet (name : string)
| Open (path : string)
| NewClient (key : string)
| Create (client : Anthropic) (args : api_args).

(** ** Computations: a log, and a value or an exit status *)

Inductive outcome (A : Type) :=
| Returned (a : A)
| SystemExit (code : Z).
Arguments Returned {A} a.
Arguments SystemExit {A} code.

Definition Run (A : Type) : Type := list event * outcome A.

Definition ret {A} (a : A) : Run A := ([], Returned a).

Definition bind {A B} (m : Run A) (f : A -> Run B) : Run B :=
  match m with
  | (l, Returned a) => let r := f a in (l ++ fst r, snd r)
  | (l, SystemExit c) => (l, SystemExit c)
  end.

Definition emit (e : event) : Run unit := ([e], Returned tt).
Definition print (s : string) : Run unit := emit (Stdout s).
Definition eprint (s : string) : Run unit := emit (Stderr s).
Definition sys_exit {A} (code : Z) : Run A := ([], SystemExit code).

Declare Scope run_scope.
Delimit Scope run_scope with run.
Notation "x <- m ;; k" := (bind m (fun x => k))
  (at level 61, m at next level, right associativity) : run_scope.
Notation "m ;; k" := (bind m (fun _ => k))
  (at level 61, right associativity) : run_scope.
Open Scope run_scope.

(** The status the process ends with: the argument of [sys.exit], or 0
    when the program runs off its end. *)
Definition exit_status {A} (r : Run A) : Z :=
  match snd r with
  | SystemExit c => c
  | Returned _ => 0%Z
  end.

(** Projections of a log. *)
Definition stdout (l : list event) : list string :=
  flat_map (fun e => match e with Stdout s => [s] | _ => [] end) l.

Definition stderr (l : list event) : list string :=
  flat_map (fun e => match e with Stderr s => [s] | _ => [] end) l.

Definition opened (l : list event) : list string :=
  flat_map (fun e => match e with Open p => [p] | _ => [] end) l.

Definition requests (l : list event) : list api_args :=
  flat_map (fun e => match e with Create _ a => [a] | _ => [] end) l.

(** ** Configuration *)

Definition DEFAULT_MODEL : string := "claude-3-sonnet-20240229".
Definition DEFAULT_MAX_TOKENS : Z := 4000.
Definition API_KEY_ENV_VAR : string := "ANTHROPIC_API_KEY".

(** The parsed command line ([argparse] guarantees at least one file). *)
Record Args := {
  files : list string;
  model : string;
  max_tokens : Z;
  verbose : bool
}.

Definition default_args (fs : list string) : Args :=
  {| files := fs; model := DEFAULT_MODEL; max_tokens := DEFAULT_MAX_TOKENS;
     verbose := false |}.

(** ** The texts the program prints *)
Module Msg.

Definition warn : string := "⚠️ ".

Definition file_not_found (filepath : string) : string :=
  warn ++ "Error: File not found: " ++ filepath.
Definition error_reading (filepath str_e : string) : string :=
  warn ++ "Error reading file " ++ filepath ++ ": " ++ str_e.
Definition env_not_set (env_var_name : string) : string :=
  warn ++ "Error: Environment variable '" ++ env_var_name ++ "' not set.".
Definition please_set : string :=
  "Please set the environment variable with your Anthropic API key.".
Definition client_error (str_e : string) : string :=
  warn ++ "Error initializing Anthropic client: " ++ str_e.

Definition sending (model : string) : string :=
  nl ++ "Sending request to Claude (model: " ++ model ++ ")...".
Definition system_prompt_missing : string :=
  warn ++ "Error: System prompt (from codeway.md) is missing or empty.".
Definition no_text_content : string :=
  warn ++ "Warning: No text content found in Claude's response.".
Definition unexpected_structure : string :=
  warn ++ "Warning: Unexpected response structure from Claude.".
Definition full_response (str_message : string) : string :=
  "Full response object: " ++ str_message.
Definition connection_error (str_e : string) : string :=
  warn ++ "API Connection Error: Please check your network connection. " ++ str_e.
Definition status_error (status_code : Z) (response : string) : string :=
  warn ++ "API Status Error: " ++ str_of_int status_code ++ " - " ++ response.
Definition hint_credential : string :=
  "   (Check if your API key is correct and active)".
Definition hint_rate_limit : string :=
  "   (You might be exceeding rate limits)".
Definition hint_context_window : string :=
  "   (Input code + system prompt likely exceed the model's context window)".
Definition hint_bad_request : string :=
  "   (Bad request - check input formatting or parameters)".
Definition anthropic_error (str_e : string) : string :=
  warn ++ "Anthropic API Error: " ++ str_e.
Definition unexpected_error (str_e : string) : string :=
  warn ++ "An unexpected error occurred during API call: " ++ str_e.

Definition reading_framework (path : string) : string :=
  "--- Reading Code Way framework from: " ++ path ++ " ---".
Definition reading_code_files : string := "--- Reading Code Files ---".
Definition processing (filepath : string) : string :=
  "Processing: " ++ filepath ++ "...".
Definition start_of_code_file (name : string) : string :=
  "--- Start of code file: " ++ name ++ " ---".
Definition end_of_code_file (name : string) : string :=
  "--- End of code file: " ++ name ++ " ---" ++ nl.
Definition skipping (filepath : string) : string :=
  "Skipping file " ++ filepath ++ " due to read error.".
Definition no_valid_files : string :=
  nl ++ warn ++ "Error: No valid code files could be read. Exiting.".
Definition successfully_read (n : nat) : string :=
  "Successfully read " ++ str_of_nat n ++ " code file(s).".

Definition prompts_being_sent : string :=
  nl ++ "--- Prompts Being Sent to Claude ---".
Definition system_prompt_preview (path preview : string) : string :=
  "[SYSTEM PROMPT from " ++ path ++ "]:" ++ nl ++ preview ++ "... (truncated)".
Definition user_prompt_heading : string := nl ++ "[USER PROMPT]:".
Definition prompts_rule : string := "------------------------------------".

Definition response_banner : string := nl ++ "--- Code Way Analysis Response ---".
Definition response_rule : string := "----------------------------------".
Definition failed_analysis : string := nl ++ "Failed to get analysis from Claude.".

End Msg.

(** ** Helper functions of the source *)

(** [read_file_content(filepath, is_critical)]: the content, [None] after
    a read error that is not critical, [sys.exit(1)] after a critical one. *)
Definition read_file_content (w : World) (filepath : string) (is_critical : bool)
  : Run (option string) :=
  emit (Open filepath) ;;
  match open_read w filepath with
  | Content s => ret (Some s)
  | RaiseFileNotFoundError =>
      eprint (Msg.file_not_found filepath) ;;
      if is_critical then sys_exit 1 else ret None
  | RaiseReadException str_e =>
      eprint (Msg.error_reading filepath str_e) ;;
      if is_critical then sys_exit 1 else ret None
  end.

(** [get_api_key(env_var_name)]. *)
Definition get_api_key (w : World) (env_var_name : string) : Run (option string) :=
  emit (EnvGet env_var_name) ;;
  let api_key := environ w env_var_name in
  (if negb (truthy api_key)
   then eprint (Msg.env_not_set env_var_name) ;; eprint Msg.please_set
   else ret tt) ;;
  ret api_key.

(** [initialize_anthropic_client(api_key)]. *)
Definition initialize_anthropic_client (w : World) (api_key : option string)
  : Run (option Anthropic) :=
  match api_key with
  | None => ret None
  | Some key =>
      if String.eqb key "" then ret None
      else
        emit (NewClient key) ;;
        match Anthropic_new w key with
        | inl client => ret (Some client)
        | inr str_e => eprint (Msg.client_error str_e) ;; ret None
        end
  end.

(** [next((block.text for block in content if block.type == 'text'), None)]. *)
Fixpoint first_text (content : list block) : option string :=
  match content with
  | [] => None
  | b :: rest =>
      if String.eqb (block_type b) "text" then Some (block_text b)
      else first_text rest
  end.

(** [message.content] on an object without that attribute: the text of the
    [AttributeError]. *)
Definition content_raises (m : message) : option string :=
  match shape m with
  | NoContent str_e => Some str_e
  | _ => None
  end.

(** [message.content and isinstance(message.content, list)]. *)
Definition content_list (m : message) : option (list block) :=
  match shape m with
  | ContentBlocks (b :: rest) => Some (b :: rest)
  | _ => None
  end.

(** [hasattr(message, 'text')], with the value of the attribute. *)
Definition text_attribute (m : message) : option (option string) :=
  match shape m with
  | BareText t => Some t
  | _ => None
  end.

(** The guidance printed after an [APIStatusError]. *)
Definition status_guidance (status_code : Z) (response : string) : Run unit :=
  if (status_code =? 401)%Z then eprint Msg.hint_credential
  else if (status_code =? 429)%Z then eprint Msg.hint_rate_limit
  else if (status_code =? 400)%Z then
    let response_body := lower response in
    if contains "context_length_exceeded" response_body
       || contains "token limit" response_body
    then eprint Msg.hint_context_window
    else eprint Msg.hint_bad_request
  else ret tt.

(** [call_claude_api(client, model, max_tokens, system_prompt, user_prompt)]:
    the response text, or [None], the failure signal. *)
Definition call_claude_api (w : World) (client : Anthropic) (model : string)
    (max_tokens : Z) (system_prompt : option string) (user_prompt : string)
  : Run (option string) :=
  print (Msg.sending model) ;;
  if negb (truthy system_prompt) then
    eprint Msg.system_prompt_missing ;; ret None
  else
    let messages := [("user", user_prompt)] in
    let api_args :=
      {| arg_model := model; arg_max_tokens := max_tokens;
         arg_messages := messages;
         arg_system := match system_prompt with Some s => s | None => "" end |} in
    emit (Create client api_args) ;;
    match messages_create w client api_args with
    | Answer message =>
        match content_raises message with
        | Some str_e => eprint (Msg.unexpected_error str_e) ;; ret None
        | None =>
            match content_list message with
            | Some content =>
                let text_block := first_text content in
                if truthy text_block then ret text_block
                else eprint Msg.no_text_content ;; ret (Some "")
            | None =>
                match text_attribute message with
                | Some text => ret text
                | None =>
                    eprint Msg.unexpected_structure ;;
                    eprint (Msg.full_response (message_str message)) ;;
                    ret (Some "")
                end
            end
        end
    | RaiseAPIConnectionError str_e =>
        eprint (Msg.connection_error str_e) ;; ret None
    | RaiseAPIStatusError status_code response =>
        eprint (Msg.status_error status_code response) ;;
        status_guidance status_code response ;;
        ret None
    | RaiseAnthropicError str_e =>
        eprint (Msg.anthropic_error str_e) ;; ret None
    | RaiseException str_e =>
        eprint (Msg.unexpected_error str_e) ;; ret None
    end.

(** ** Main execution logic *)

(** The loop of [main] over [args.files]: it extends
    [code_files_aggregated] and [valid_files_processed]. *)
Fixpoint read_code_files (w : World) (paths : list string)
    (code_files_aggregated : list string) (valid_files_processed : nat)
  : Run (list string * nat) :=
  match paths with
  | [] => ret (code_files_aggregated, valid_files_processed)
  | filepath :: rest =>
      print (Msg.processing filepath) ;;
      content <- read_file_content w filepath false ;;
      match content with
      | Some c =>
          read_code_files w rest
            (code_files_aggregated ++
               [Msg.start_of_code_file (basename filepath); c;
                Msg.end_of_code_file (basename filepath)])
            (S valid_files_processed)
      | None =>
          eprint (Msg.skipping filepath) ;;
          read_code_files w rest code_files_aggregated valid_files_processed
      end
  end.

(** [final_user_prompt], from [valid_files_processed] and
    [combined_code_text]. *)
Definition final_user_prompt (valid_files_processed : nat)
    (combined_code_text : string) : string :=
  ("Apply the Code Way framework (provided in the system prompt) to analyze the following code contained in "
   ++ str_of_nat valid_files_processed ++ " file(s):" ++ nl ++ nl
   ++ combined_code_text ++ nl ++ nl
   ++ "Provide your analysis based *only* on the framework and the code provided.")%string.

(** The verbose preview; [codeway_system_prompt] is never [None] here
    (subscripting [None] would raise, which ends the process with status 1). *)
Definition print_prompts (w : World) (codeway_system_prompt : option string)
    (user_prompt : string) : Run unit :=
  match codeway_system_prompt with
  | Some s =>
      print Msg.prompts_being_sent ;;
      print (Msg.system_prompt_preview (CODEWAY_PROMPT_FILENAME w) (take 500 s)) ;;
      print Msg.user_prompt_heading ;;
      print user_prompt ;;
      print Msg.prompts_rule
  | None => print Msg.prompts_being_sent ;; sys_exit 1
  end.

Definition main (w : World) (args : Args) : Run unit :=
  api_key <- get_api_key w API_KEY_ENV_VAR ;;
  if negb (truthy api_key) then sys_exit 1 else
  client <- initialize_anthropic_client w api_key ;;
  match client with
  | None => sys_exit 1
  | Some client =>
      print (Msg.reading_framework (CODEWAY_PROMPT_FILENAME w)) ;;
      codeway_system_prompt <- read_file_content w (CODEWAY_PROMPT_FILENAME w) true ;;
      print Msg.reading_code_files ;;
      acc <- read_code_files w (files args) [] 0 ;;
      let code_files_aggregated := fst acc in
      let valid_files_processed := snd acc in
      if (valid_files_processed =? 0)%nat then
        eprint Msg.no_valid_files ;; sys_exit 1
      else
        print (Msg.successfully_read valid_files_processed) ;;
        let combined_code_text := join nl code_files_aggregated in
        let user_prompt := final_user_prompt valid_files_processed combined_code_text in
        (if verbose args then print_prompts w codeway_system_prompt user_prompt
         else ret tt) ;;
        analysis_response <-
          call_claude_api w client (model args) (max_tokens args)
            codeway_system_prompt user_prompt ;;
        match analysis_response with
        | Some text =>
            print Msg.response_banner ;;
            print text ;;
            print Msg.response_rule ;;
            sys_exit 0
        | None =>
            eprint Msg.failed_analysis ;;
            sys_exit 1
        end
  end.

(** ** A sample world, for running the model *)
Module Sample.

Definition w : World :=
  {| environ := fun n => if String.eqb n "ANTHROPIC_API_KEY" then Some "sk-test" else None;
     open_read := fun p =>
       if String.eqb p "/opt/codeway/prompts/codeway.md" then Content "The Code Way."
       else if String.eqb p "src/a.py" then Content "print(1)"
       else if String.eqb p "b.py" then Content "x = 2"
       else if String.eqb p "locked.py" then RaiseReadException "Permission denied"
       else RaiseFileNotFoundError;
     Anthropic_new := fun k => inl {| client_api_key := k |};
     messages_create := fun _ _ =>
       Answer {| shape := ContentBlocks [ {| block_type := "text"; block_text := "Looks fine." |} ];
                 message_str := "Message(...)" |};
     CODEWAY_PROMPT_FILENAME := "/opt/codeway/prompts/codeway.md" |}.

End Sample.

(** ** What the loop over the files computes, in the words of the
    specification *)

(** The content of a path that reads, [None] for one that does not. *)
Definition file_content (w : World) (p : string) : option string :=
  match open_read w p with
  | Content s => Some s
  | _ => None
  end.

Definition readable (w : World) (p : string) : Prop :=
  exists s, open_read w p = Content s.

Definition unreadable (w : World) (p : string) : Prop :=
  forall s, open_read w p <> Content s.

(** The successfully read files, with their content, in the order given. *)
Definition successfully_read_files (w : World) (paths : list string)
  : list (string * string) :=
  flat_map (fun p => match file_content w p with
                     | Some c => [(p, c)]
                     | None => []
                     end) paths.

(** The three segments of one file: a start marker naming its base name,
    its raw content, an end marker naming the base name, with its trailing
    newline. *)
Definition three_segments (f : string * string) : list string :=
  [ Msg.start_of_code_file (basename (fst f));
    snd f;
    Msg.end_of_code_file (basename (fst f)) ].

Definition payload_segments (w : World) (paths : list string) : list string :=
  flat_map three_segments (successfully_read_files w paths).

(** The assembled text: the segments joined by newlines. *)
Definition combined_code_text (w : World) (paths : list string) : string :=
  join nl (payload_segments w paths).

(** The user prompt [main] builds for these paths. *)
Definition user_prompt_of (w : World) (paths : list string) : string :=
  final_user_prompt (length (successfully_read_files w paths))
                    (combined_code_text w paths).

(** The events of one turn of the loop. *)
Definition file_events (w : World) (filepath : string) : list event :=
  Stdout (Msg.processing filepath) :: Open filepath ::
  match open_read w filepath with
  | Content _ => []
  | RaiseFileNotFoundError =>
      [Stderr (Msg.file_not_found filepath); Stderr (Msg.skipping filepath)]
  | RaiseReadException str_e =>
      [Stderr (Msg.error_reading filepath str_e); Stderr (Msg.skipping filepath)]
  end.

(** The keyword arguments [call_claude_api] builds, and those of the call
    made by [main]. *)
Definition request (model : string) (max_tokens : Z) (system user_prompt : string)
  : api_args :=
  {| arg_model := model; arg_max_tokens := max_tokens;
     arg_messages := [("user", user_prompt)]; arg_system := system |}.

Definition request_of (w : World) (args : Args) (system : string) : api_args :=
  request (model args) (max_tokens args) system (user_prompt_of w (files args)).

(** The test of the source after a bad request, on the text
    [str(e.response)]. *)
Definition overflow_wording (response : string) : bool :=
  contains "context_length_exceeded" (lower response)
  || contains "token limit" (lower response).

(** A response block on standard output: the banner, one printed text, the
    closing rule.  [count_blocks] counts the places where one starts. *)
Definition block_starts (line : string) (rest : list string) : bool :=
  match rest with
  | _ :: rule :: _ =>
      String.eqb line Msg.response_banner && String.eqb rule Msg.response_rule
  | _ => false
  end.

Fixpoint count_blocks (out : list string) : nat :=
  match out with
  | [] => 0
  | line :: rest =>
      (if block_starts line rest then 1 else 0) + count_blocks rest
  end.

(** ** The shape of a run *)

(** The run gets as far as the remote call: the credential is set, the
    client is built, the framework document reads, and one file at least
    reads. *)
Definition ready (w : World) (args : Args) (key : string) (client : Anthropic)
    (framework : string) : Prop :=
  environ w API_KEY_ENV_VAR = Some key /\ key <> "" /\
  Anthropic_new w key = inl client /\
  open_read w (CODEWAY_PROMPT_FILENAME w) = Content framework /\
  exists p, In p (files args) /\ readable w p.

Definition verbose_events (w : World) (args : Args) (framework : string) : list event :=
  if verbose args then
    [ Stdout Msg.prompts_being_sent;
      Stdout (Msg.system_prompt_preview (CODEWAY_PROMPT_FILENAME w)
                (take 500 framework));
      Stdout Msg.user_prompt_heading;
      Stdout (user_prompt_of w (files args));
      Stdout Msg.prompts_rule ]
  else [].

(** Everything a ready run does before the remote call. *)
Definition setup_events (w : World) (args : Args) (key framework : string)
  : list event :=
  [ EnvGet API_KEY_ENV_VAR; NewClient key;
    Stdout (Msg.reading_framework (CODEWAY_PROMPT_FILENAME w));
    Open (CODEWAY_PROMPT_FILENAME w);
    Stdout Msg.reading_code_files ] ++
  flat_map (file_events w) (files args) ++
  [ Stdout (Msg.successfully_read (length (successfully_read_files w (files args)))) ] ++
  verbose_events w args framework.

(** The output section of [main]. *)
Definition render (analysis_response : option string) : list event :=
  match analysis_response with
  | Some text =>
      [Stdout Msg.response_banner; Stdout text; Stdout Msg.response_rule]
  | None => [Stderr Msg.failed_analysis]
  end.

Definition render_status (analysis_response : option string) : Z :=
  match analysis_response with
  | Some _ => 0
  | None => 1
  end.

(** The remote call of [main], in a run that got to it. *)
Definition call_of_main (w : World) (args : Args) (client : Anthropic)
    (framework : string) : Run (option string) :=
  call_claude_api w client (model args) (max_tokens args) (Some framework)
    (user_prompt_of w (files args)).

(** The text that precedes the segments of a file: the segments of the
    earlier files, and the newline that joins them to it. *)
Definition text_before (w : World) (earlier : list string) : string :=
  match payload_segments w earlier with
  | [] => ""
  | _ => (combined_code_text w earlier ++ nl)%string
  end.

(** The text that follows them: that newline, and the segments of the
    later files. *)
Definition text_after (w : World) (later : list string) : string :=
  match payload_segments w later with
  | [] => ""
  | _ => (nl ++ combined_code_text w later)%string
  end.

(** The same surroundings, with a service that answers [r]. *)
Definition answering (w : World) (r : api_result) : World :=
  {| environ := environ w; open_read := open_read w;
     Anthropic_new := Anthropic_new w;
     messages_create := fun _ _ => r;
     CODEWAY_PROMPT_FILENAME := CODEWAY_PROMPT_FILENAME w |}.

(** ** Sample inputs *)

(** Inputs on which the properties below are exercised. *)
Module Inputs.

Definition client : Anthropic := {| client_api_key := "sk-test" |}.

Definition mixed_args : Args :=
  {| files := ["src/a.py"; "missing.py"; "locked.py"; "b.py"];
     model := DEFAULT_MODEL; max_tokens := DEFAULT_MAX_TOKENS; verbose := true |}.

Definition unreadable_args : Args := default_args ["missing.py"; "locked.py"].

(** The sample world without the credential. *)
Definition without_key (w : World) : World :=
  {| environ := fun _ => None; open_read := open_read w;
     Anthropic_new := Anthropic_new w;
     messages_create := messages_create w;
     CODEWAY_PROMPT_FILENAME := CODEWAY_PROMPT_FILENAME w |}.

(** The sample world with the framework document somewhere it is not. *)
Definition without_framework (w : World) : World :=
  {| environ := environ w; open_read := open_read w;
     Anthropic_new := Anthropic_new w;
     messages_create := messages_create w;
     CODEWAY_PROMPT_FILENAME := "/nowhere/prompts/codeway.md" |}.

End Inputs.

(** ** The five ways a run can go *)

(** [main] leaves at one of five places: after the credential lookup, after
    the construction of the client, after the critical read of the
    framework document, after the loop when no file was read, or after the
    output section. *)
Inductive run_shape (w : World) (args : Args) : Run unit -> Prop :=
| NoKey :
    truthy (environ w API_KEY_ENV_VAR) = false ->
    run_shape w args
      ([EnvGet API_KEY_ENV_VAR; Stderr (Msg.env_not_set API_KEY_ENV_VAR);
        Stderr Msg.please_set],
       SystemExit 1)
| NoClient key str_e :
    environ w API_KEY_ENV_VAR = Some key -> key <> "" ->
    Anthropic_new w key = inr str_e ->
    run_shape w args
      ([EnvGet API_KEY_ENV_VAR; NewClient key; Stderr (Msg.client_error str_e)],
       SystemExit 1)
| NoFramework key client diagnostic :
    environ w API_KEY_ENV_VAR = Some key -> key <> "" ->
    Anthropic_new w key = inl client ->
    unreadable w (CODEWAY_PROMPT_FILENAME w) ->
    run_shape w args
      ([EnvGet API_KEY_ENV_VAR; NewClient key;
        Stdout (Msg.reading_framework (CODEWAY_PROMPT_FILENAME w));
        Open (CODEWAY_PROMPT_FILENAME w); Stderr diagnostic],
       SystemExit 1)
| NoFiles key client framework :
    environ w API_KEY_ENV_VAR = Some key -> key <> "" ->
    Anthropic_new w key = inl client ->
    open_read w (CODEWAY_PROMPT_FILENAME w) = Content framework ->
    successfully_read_files w (files args) = [] ->
    run_shape w args
      ([EnvGet API_KEY_ENV_VAR; NewClient key;
        Stdout (Msg.reading_framework (CODEWAY_PROMPT_FILENAME w));
        Open (CODEWAY_PROMPT_FILENAME w);
        Stdout Msg.reading_code_files] ++
       flat_map (file_events w) (files args) ++
       [Stderr Msg.no_valid_files],
       SystemExit 1)
| Ready key client framework l analysis_response :
    ready w args key client framework ->
    call_of_main w args client framework = (l, Returned analysis_response) ->
    run_shape w args
      (setup_events w args key framework ++ l ++ render analysis_response,
       SystemExit (render_status analysis_response)).

(** The same command line with another setting of [--verbose]. *)
Definition with_verbose (args : Args) (v : bool) : Args :=
  {| files := files args; model := model args; max_tokens := max_tokens args;
     verbose := v |}.

(** The same world with a file system in which [path] does not read. *)
Definition with_read_failure (w : World) (path : string) (r : read_result) : World :=
  {| environ := environ w;
     open_read := fun p => if String.eqb p path then r else open_read w p;
     Anthropic_new := Anthropic_new w;
     messages_create := messages_create w;
     CODEWAY_PROMPT_FILENAME := CODEWAY_PROMPT_FILENAME w |}.

(** The same world with a constructor of the client that raises. *)
Definition with_client_failure (w : World) (str_e : string) : World :=
  {| environ := environ w; open_read := open_read w;
     Anthropic_new := fun _ => inr str_e;
     messages_create := messages_create w;
     CODEWAY_PROMPT_FILENAME := CODEWAY_PROMPT_FILENAME w |}.

(** The diagnostic of the three exception arms of [call_claude_api] that
    print the exception and nothing else. *)
Definition raised_report (r : api_result) : option string :=
  match r with
  | RaiseAPIConnectionError str_e => Some (Msg.connection_error str_e)
  | RaiseAnthropicError str_e => Some (Msg.anthropic_error str_e)
  | RaiseException str_e => Some (Msg.unexpected_error str_e)
  | Answer _ | RaiseAPIStatusError _ _ => None
  end.

(** The same world with the credential variable set to [key]. *)
Definition with_key (w : World) (key : string) : World :=
  {| environ := fun name =>
       if String.eqb name API_KEY_ENV_VAR then Some key else environ w name;
     open_read := open_read w;
     Anthropic_new := Anthropic_new w;
     messages_create := messages_create w;
     CODEWAY_PROMPT_FILENAME := CODEWAY_PROMPT_FILENAME w |}.

(** ** Laws of the computations *)

Lemma bind_returned {A B} (l : list event) (a : A) (f : A -> Run B) :
  bind (l, Returned a) f = (l ++ fst (f a), snd (f a)).
Proof. reflexivity. Qed.

Lemma bind_exited {A B} (l : list event) (c : Z) (f : A -> Run B) :
  bind (l, SystemExit c) f = (l, SystemExit c).
Proof. reflexivity. Qed.

Lemma bind_emit {B} (e : event) (k : unit -> Run B) :
  bind (emit e) k = (e :: fst (k tt), snd (k tt)).
Proof. reflexivity. Qed.

Lemma bind_ret {A B} (a : A) (f : A -> Run B) : bind (ret a) f = f a.
Proof. unfold ret. rewrite bind_returned. simpl. destruct (f a); reflexivity. Qed.

Lemma bind_bind {A B C} (m : Run A) (f : A -> Run B) (g : B -> Run C) :
  bind (bind m f) g = bind m (fun a => bind (f a) g).
Proof.
  destruct m as [l [a|c]]; simpl; [|reflexivity].
  destruct (f a) as [l1 [b|c]]; simpl; [|reflexivity].
  destruct (g b) as [l2 r]; simpl. now rewrite app_assoc.
Qed.

Lemma stdout_app (l1 l2 : list event) : stdout (l1 ++ l2) = stdout l1 ++ stdout l2.
Proof. apply flat_map_app. Qed.

Lemma stderr_app (l1 l2 : list event) : stderr (l1 ++ l2) = stderr l1 ++ stderr l2.
Proof. apply flat_map_app. Qed.

Lemma opened_app (l1 l2 : list event) : opened (l1 ++ l2) = opened l1 ++ opened l2.
Proof. apply flat_map_app. Qed.

Lemma requests_app (l1 l2 : list event) :
  requests (l1 ++ l2) = requests l1 ++ requests l2.
Proof. apply flat_map_app. Qed.

(** ** Reading files *)

Section Reading.
Variable w : World.

Lemma truthy_true (o : option string) :
  truthy o = true <-> exists s, o = Some s /\ s <> "".
Proof.
  destruct o as [s|]; simpl.
  - destruct (String.eqb_spec s ""); simpl; split.
    + discriminate.
    + intros (s' & E & N). inversion E; subst. now elim N.
    + intros _. now exists s.
    + reflexivity.
  - split; [discriminate | intros (s & E & _); discriminate].
Qed.

Lemma file_content_readable p : readable w p <-> file_content w p <> None.
Proof.
  unfold readable, file_content. destruct (open_read w p) as [s| |e]; split.
  - discriminate.
  - intros _. now exists s.
  - intros [s E]; discriminate.
  - intros H; now elim H.
  - intros [s E]; discriminate.
  - intros H; now elim H.
Qed.

Lemma file_content_unreadable p : unreadable w p <-> file_content w p = None.
Proof.
  unfold unreadable, file_content. destruct (open_read w p) as [s| |e]; split.
  - intros H. now elim (H s).
  - discriminate.
  - reflexivity.
  - intros _ s; discriminate.
  - reflexivity.
  - intros _ s; discriminate.
Qed.

(** A read that is not critical returns, whatever the file system does. *)
Lemma read_file_content_optional p :
  read_file_content w p false =
    (Open p :: match open_read w p with
               | Content _ => []
               | RaiseFileNotFoundError => [Stderr (Msg.file_not_found p)]
               | RaiseReadException str_e => [Stderr (Msg.error_reading p str_e)]
               end,
     Returned (file_content w p)).
Proof.
  unfold read_file_content, file_content. rewrite bind_emit.
  destruct (open_read w p); reflexivity.
Qed.

(** A critical read returns the content or exits with status 1. *)
Lemma read_file_content_critical p :
  read_file_content w p true =
    match open_read w p with
    | Content s => ([Open p], Returned (Some s))
    | RaiseFileNotFoundError =>
        ([Open p; Stderr (Msg.file_not_found p)], SystemExit 1)
    | RaiseReadException str_e =>
        ([Open p; Stderr (Msg.error_reading p str_e)], SystemExit 1)
    end.
Proof.
  unfold read_file_content. rewrite bind_emit.
  destruct (open_read w p); reflexivity.
Qed.

(** The loop returns the aggregate extended by the payload segments, and
    the counter advanced by the number of files read; its events do not
    depend on the accumulators. *)
Lemma read_code_files_spec paths :
  forall acc n,
    read_code_files w paths acc n =
      (flat_map (file_events w) paths,
       Returned (acc ++ payload_segments w paths,
                 n + length (successfully_read_files w paths))).
Proof.
  induction paths as [|p rest IH]; intros acc n.
  - simpl. unfold ret, payload_segments. simpl.
    now rewrite app_nil_r, Nat.add_0_r.
  - cbn [read_code_files]. unfold print. rewrite bind_emit.
    rewrite read_file_content_optional, bind_returned.
    unfold payload_segments, successfully_read_files, file_events, file_content.
    cbn [flat_map fst snd].
    destruct (open_read w p) as [s| |e].
    + rewrite IH. cbn [fst snd app flat_map three_segments].
      unfold payload_segments, successfully_read_files, file_content.
      rewrite <- app_assoc. cbn [app length].
      now rewrite Nat.add_succ_r.
    + unfold eprint. rewrite bind_emit, IH. cbn [fst snd app].
      reflexivity.
    + unfold eprint. rewrite bind_emit, IH. cbn [fst snd app].
      reflexivity.
Qed.

End Reading.

(** ** The files that were read *)

Section Files.
Variable w : World.

Lemma successfully_read_none paths :
  (forall p, In p paths -> unreadable w p) ->
  successfully_read_files w paths = [].
Proof.
  induction paths as [|p rest IH]; intros H; [reflexivity|].
  unfold successfully_read_files. cbn [flat_map].
  rewrite (proj1 (file_content_unreadable w p) (H p (or_introl eq_refl))).
  apply IH. intros q Hq. apply H. now right.
Qed.

Lemma successfully_read_some paths p :
  In p paths -> readable w p ->
  length (successfully_read_files w paths) <> 0.
Proof.
  induction paths as [|q rest IH]; intros Hin Hr; [contradiction|].
  unfold successfully_read_files. cbn [flat_map]. rewrite length_app.
  destruct Hin as [->|Hin].
  - destruct Hr as [s E]. unfold file_content. rewrite E. simpl. lia.
  - specialize (IH Hin Hr). unfold successfully_read_files in IH. lia.
Qed.

Lemma successfully_read_app l1 l2 :
  successfully_read_files w (l1 ++ l2) =
    successfully_read_files w l1 ++ successfully_read_files w l2.
Proof. apply flat_map_app. Qed.

Lemma payload_segments_app l1 l2 :
  payload_segments w (l1 ++ l2) = payload_segments w l1 ++ payload_segments w l2.
Proof.
  unfold payload_segments. rewrite successfully_read_app. apply flat_map_app.
Qed.

(** The loop opens exactly the paths it is given, in order. *)
Lemma opened_file_events paths : opened (flat_map (file_events w) paths) = paths.
Proof.
  induction paths as [|p rest IH]; [reflexivity|].
  cbn [flat_map]. rewrite opened_app, IH. unfold file_events.
  destruct (open_read w p); reflexivity.
Qed.

Lemma requests_file_events paths : requests (flat_map (file_events w) paths) = [].
Proof.
  induction paths as [|p rest IH]; [reflexivity|].
  cbn [flat_map]. rewrite requests_app, IH. unfold file_events.
  destruct (open_read w p); reflexivity.
Qed.

Lemma stdout_file_events paths :
  stdout (flat_map (file_events w) paths) = map Msg.processing paths.
Proof.
  induction paths as [|p rest IH]; [reflexivity|].
  cbn [flat_map map]. rewrite stdout_app, IH. unfold file_events.
  destruct (open_read w p); reflexivity.
Qed.

End Files.

(** ** The remote call *)

Section RemoteCall.
Variable w : World.
Variables (client : Anthropic) (model : string) (max_tokens : Z).

(** Without a system prompt nothing is sent. *)
Lemma call_without_system system_prompt user_prompt :
  truthy system_prompt = false ->
  call_claude_api w client model max_tokens system_prompt user_prompt =
    ([Stdout (Msg.sending model); Stderr Msg.system_prompt_missing],
     Returned None).
Proof.
  intros H. unfold call_claude_api. rewrite H. reflexivity.
Qed.

(** With one, the request is sent, and what follows is decided by the
    answer of the service. *)
Lemma call_with_system system user_prompt :
  system <> "" ->
  call_claude_api w client model max_tokens (Some system) user_prompt =
    bind (print (Msg.sending model)) (fun _ =>
    bind (emit (Create client (request model max_tokens system user_prompt))) (fun _ =>
      match messages_create w client (request model max_tokens system user_prompt) with
      | Answer message =>
          match content_raises message with
          | Some str_e => eprint (Msg.unexpected_error str_e) ;; ret None
          | None =>
              match content_list message with
              | Some content =>
                  if truthy (first_text content) then ret (first_text content)
                  else eprint Msg.no_text_content ;; ret (Some "")
              | None =>
                  match text_attribute message with
                  | Some text => ret text
                  | None =>
                      eprint Msg.unexpected_structure ;;
                      eprint (Msg.full_response (message_str message)) ;;
                      ret (Some "")
                  end
              end
          end
      | RaiseAPIConnectionError str_e =>
          eprint (Msg.connection_error str_e) ;; ret None
      | RaiseAPIStatusError status_code response =>
          eprint (Msg.status_error status_code response) ;;
          status_guidance status_code response ;;
          ret None
      | RaiseAnthropicError str_e =>
          eprint (Msg.anthropic_error str_e) ;; ret None
      | RaiseException str_e =>
          eprint (Msg.unexpected_error str_e) ;; ret None
      end)).
Proof.
  intros H. unfold call_claude_api.
  assert (T : truthy (Some system) = true).
  { apply truthy_true. now exists system. }
  rewrite T. reflexivity.
Qed.

Lemma status_guidance_returns status_code response :
  exists l, status_guidance status_code response = (l, Returned tt).
Proof.
  unfold status_guidance.
  repeat match goal with
         | |- context [if ?b then _ else _] => destruct b
         end; eexists; reflexivity.
Qed.

(** The remote-call operation never leaves the process: every failure
    comes back as a value. *)
Lemma call_claude_api_returns system_prompt user_prompt :
  exists l o,
    call_claude_api w client model max_tokens system_prompt user_prompt =
      (l, Returned o).
Proof.
  destruct (truthy system_prompt) eqn:T.
  - apply truthy_true in T. destruct T as (s & -> & Hs).
    rewrite (call_with_system s user_prompt Hs).
    unfold print. rewrite !bind_emit.
    destruct (messages_create w client (request model max_tokens s user_prompt)) as [m|e|c r|e|e].
    + destruct (content_raises m) as [ce|]; [eexists; eexists; reflexivity|].
      destruct (content_list m) as [bs|].
      * destruct (truthy (first_text bs)); eexists; eexists; reflexivity.
      * destruct (text_attribute m); eexists; eexists; reflexivity.
    + eexists; eexists; reflexivity.
    + destruct (status_guidance_returns c r) as [l E].
      unfold eprint. rewrite bind_emit, E. eexists; eexists; reflexivity.
    + eexists; eexists; reflexivity.
    + eexists; eexists; reflexivity.
  - rewrite (call_without_system _ _ T). eexists; eexists; reflexivity.
Qed.

(** The answer is a list of blocks, not empty. *)
Lemma call_content_blocks system user_prompt m b bs :
  system <> "" ->
  messages_create w client (request model max_tokens system user_prompt) = Answer m ->
  shape m = ContentBlocks (b :: bs) ->
  call_claude_api w client model max_tokens (Some system) user_prompt =
    (Stdout (Msg.sending model) :: Create client (request model max_tokens system user_prompt) ::
       (if truthy (first_text (b :: bs)) then [] else [Stderr Msg.no_text_content]),
     Returned (if truthy (first_text (b :: bs)) then first_text (b :: bs)
               else Some "")).
Proof.
  intros Hs Ha Hm. rewrite (call_with_system _ _ Hs), Ha.
  unfold content_raises, content_list. rewrite Hm. unfold print. rewrite !bind_emit.
  destruct (truthy (first_text (b :: bs))); reflexivity.
Qed.

(** The answer is an empty list of blocks. *)
Lemma call_no_blocks system user_prompt m :
  system <> "" ->
  messages_create w client (request model max_tokens system user_prompt) = Answer m ->
  shape m = ContentBlocks [] ->
  call_claude_api w client model max_tokens (Some system) user_prompt =
    ([Stdout (Msg.sending model); Create client (request model max_tokens system user_prompt);
      Stderr Msg.unexpected_structure;
      Stderr (Msg.full_response (message_str m))],
     Returned (Some "")).
Proof.
  intros Hs Ha Hm. rewrite (call_with_system _ _ Hs), Ha.
  unfold content_raises, content_list, text_attribute. rewrite Hm. reflexivity.
Qed.

(** The service answers with a status error. *)
Lemma call_status_error system user_prompt status_code response :
  system <> "" ->
  messages_create w client (request model max_tokens system user_prompt) =
    RaiseAPIStatusError status_code response ->
  call_claude_api w client model max_tokens (Some system) user_prompt =
    (Stdout (Msg.sending model) :: Create client (request model max_tokens system user_prompt) ::
       Stderr (Msg.status_error status_code response) ::
       fst (status_guidance status_code response),
     Returned None).
Proof.
  intros Hs Ha. rewrite (call_with_system _ _ Hs), Ha.
  unfold print, eprint. rewrite !bind_emit.
  destruct (status_guidance_returns status_code response) as [l E].
  rewrite E. cbn. now rewrite app_nil_r.
Qed.

End RemoteCall.

(** ** The run as a whole *)

Section Main.
Variable w : World.
Variable args : Args.

Lemma get_api_key_set key :
  environ w API_KEY_ENV_VAR = Some key -> key <> "" ->
  get_api_key w API_KEY_ENV_VAR = ([EnvGet API_KEY_ENV_VAR], Returned (Some key)).
Proof.
  intros E N. unfold get_api_key. rewrite bind_emit, E.
  assert (T : truthy (Some key) = true) by (apply truthy_true; now exists key).
  rewrite T. reflexivity.
Qed.

Lemma get_api_key_unset :
  truthy (environ w API_KEY_ENV_VAR) = false ->
  get_api_key w API_KEY_ENV_VAR =
    ([EnvGet API_KEY_ENV_VAR; Stderr (Msg.env_not_set API_KEY_ENV_VAR);
      Stderr Msg.please_set],
     Returned (environ w API_KEY_ENV_VAR)).
Proof.
  intros T. unfold get_api_key. rewrite bind_emit, T. reflexivity.
Qed.

Lemma initialize_client_set key :
  key <> "" ->
  initialize_anthropic_client w (Some key) =
    match Anthropic_new w key with
    | inl client => ([NewClient key], Returned (Some client))
    | inr str_e => ([NewClient key; Stderr (Msg.client_error str_e)], Returned None)
    end.
Proof.
  intros N. unfold initialize_anthropic_client.
  destruct (String.eqb_spec key ""); [contradiction|].
  rewrite bind_emit. destruct (Anthropic_new w key); reflexivity.
Qed.

(** No credential: the run stops at once. *)
Lemma main_without_key :
  truthy (environ w API_KEY_ENV_VAR) = false ->
  main w args =
    ([EnvGet API_KEY_ENV_VAR; Stderr (Msg.env_not_set API_KEY_ENV_VAR);
      Stderr Msg.please_set],
     SystemExit 1).
Proof.
  intros T. unfold main. rewrite (get_api_key_unset T), bind_returned, T.
  reflexivity.
Qed.

(** No client: the run stops before any file is opened. *)
Lemma main_without_client key str_e :
  environ w API_KEY_ENV_VAR = Some key -> key <> "" ->
  Anthropic_new w key = inr str_e ->
  main w args =
    ([EnvGet API_KEY_ENV_VAR; NewClient key; Stderr (Msg.client_error str_e)],
     SystemExit 1).
Proof.
  intros E N C. unfold main. rewrite (get_api_key_set _ E N), bind_returned.
  assert (T : truthy (Some key) = true) by (apply truthy_true; now exists key).
  rewrite T. cbn [negb]. rewrite (initialize_client_set _ N), C. reflexivity.
Qed.

(** The steps of [main] after the client is built. *)
Lemma main_with_client key client :
  environ w API_KEY_ENV_VAR = Some key -> key <> "" ->
  Anthropic_new w key = inl client ->
  main w args =
    bind (EnvGet API_KEY_ENV_VAR :: [NewClient key], Returned tt) (fun _ =>
    print (Msg.reading_framework (CODEWAY_PROMPT_FILENAME w)) ;;
    codeway_system_prompt <- read_file_content w (CODEWAY_PROMPT_FILENAME w) true ;;
    print Msg.reading_code_files ;;
    acc <- read_code_files w (files args) [] 0 ;;
    if (snd acc =? 0)%nat then eprint Msg.no_valid_files ;; sys_exit 1
    else
      print (Msg.successfully_read (snd acc)) ;;
      (if verbose args
       then print_prompts w codeway_system_prompt
              (final_user_prompt (snd acc) (join nl (fst acc)))
       else ret tt) ;;
      analysis_response <-
        call_claude_api w client (model args) (max_tokens args)
          codeway_system_prompt
          (final_user_prompt (snd acc) (join nl (fst acc))) ;;
      match analysis_response with
      | Some text =>
          print Msg.response_banner ;; print text ;;
          print Msg.response_rule ;; sys_exit 0
      | None => eprint Msg.failed_analysis ;; sys_exit 1
      end).
Proof.
  intros E N C. unfold main. rewrite (get_api_key_set _ E N), bind_returned.
  assert (T : truthy (Some key) = true) by (apply truthy_true; now exists key).
  rewrite T. cbn [negb]. rewrite (initialize_client_set _ N), C.
  rewrite !bind_returned. cbn [app]. reflexivity.
Qed.

(** No framework document: the run stops before the loop over the files. *)
Lemma main_without_framework key client :
  environ w API_KEY_ENV_VAR = Some key -> key <> "" ->
  Anthropic_new w key = inl client ->
  (forall s, open_read w (CODEWAY_PROMPT_FILENAME w) <> Content s) ->
  exists diagnostic,
    main w args =
      ([EnvGet API_KEY_ENV_VAR; NewClient key;
        Stdout (Msg.reading_framework (CODEWAY_PROMPT_FILENAME w));
        Open (CODEWAY_PROMPT_FILENAME w); Stderr diagnostic],
       SystemExit 1).
Proof.
  intros E N C F. rewrite (main_with_client _ _ E N C), bind_returned.
  unfold print. rewrite bind_emit, read_file_content_critical.
  destruct (open_read w (CODEWAY_PROMPT_FILENAME w)) as [s| |e].
  - now elim (F s).
  - eexists. reflexivity.
  - eexists. reflexivity.
Qed.

(** No file read: the run stops before the remote call. *)
Lemma main_without_files key client framework :
  environ w API_KEY_ENV_VAR = Some key -> key <> "" ->
  Anthropic_new w key = inl client ->
  open_read w (CODEWAY_PROMPT_FILENAME w) = Content framework ->
  successfully_read_files w (files args) = [] ->
  main w args =
    ([EnvGet API_KEY_ENV_VAR; NewClient key;
      Stdout (Msg.reading_framework (CODEWAY_PROMPT_FILENAME w));
      Open (CODEWAY_PROMPT_FILENAME w);
      Stdout Msg.reading_code_files] ++
     flat_map (file_events w) (files args) ++
     [Stderr Msg.no_valid_files],
     SystemExit 1).
Proof.
  intros E N C F Z. rewrite (main_with_client _ _ E N C), bind_returned.
  unfold print. rewrite bind_emit, read_file_content_critical, F.
  rewrite bind_returned, bind_emit, read_code_files_spec, bind_returned.
  rewrite Z. cbn [snd fst length Nat.add Nat.eqb app].
  unfold eprint. rewrite bind_emit. reflexivity.
Qed.

(** A ready run: the setup, then the remote call, then the output
    section, whose exit status is decided by the value the call returned. *)
Lemma main_ready key client framework l analysis_response :
  ready w args key client framework ->
  call_claude_api w client (model args) (max_tokens args) (Some framework)
    (user_prompt_of w (files args)) = (l, Returned analysis_response) ->
  main w args =
    (setup_events w args key framework ++ l ++ render analysis_response,
     SystemExit (render_status analysis_response)).
Proof.
  intros (E & N & C & F & p & Hin & Hr) Hcall.
  pose proof (successfully_read_some w (files args) p Hin Hr) as Hn.
  rewrite (main_with_client _ _ E N C), bind_returned.
  unfold print. rewrite bind_emit, read_file_content_critical, F.
  rewrite bind_returned, bind_emit, read_code_files_spec, bind_returned.
  cbn [snd fst app Nat.add].
  destruct (Nat.eqb_spec (length (successfully_read_files w (files args))) 0)
    as [Z|_]; [contradiction|].
  rewrite bind_emit. fold (combined_code_text w (files args)).
  fold (user_prompt_of w (files args)). rewrite Hcall.
  unfold setup_events, verbose_events, print_prompts, print, eprint.
  destruct (verbose args); destruct analysis_response as [text|];
    rewrite ?bind_emit, ?bind_ret, ?bind_returned; cbn [fst snd app render render_status];
    rewrite <- ?app_assoc; cbn [app]; rewrite ?app_nil_r; reflexivity.
Qed.

End Main.

(** ** Standard output of a run *)

Section Output.
Variable w : World.

(** The remote-call operation prints one line, whatever happens next. *)
Lemma stdout_call client model max_tokens system_prompt user_prompt :
  stdout (fst (call_claude_api w client model max_tokens system_prompt user_prompt))
  = [Msg.sending model].
Proof.
  destruct (truthy system_prompt) eqn:T.
  - apply truthy_true in T. destruct T as (s & -> & Hs).
    rewrite (call_with_system w client model max_tokens s user_prompt Hs).
    unfold print, eprint. rewrite !bind_emit.
    destruct (messages_create w client (request model max_tokens s user_prompt))
      as [m|e|c r|e|e].
    + destruct (content_raises m) as [ce|]; [reflexivity|].
      destruct (content_list m) as [bs|].
      * destruct (truthy (first_text bs)); reflexivity.
      * destruct (text_attribute m); reflexivity.
    + reflexivity.
    + rewrite bind_emit.
      destruct (status_guidance_returns c r) as [l E]. rewrite E.
      cbn [fst snd bind app]. unfold stdout. cbn [flat_map app].
      f_equal. revert E. unfold status_guidance, eprint, emit, ret.
      repeat match goal with
             | |- context [if ?b then _ else _] => destruct b
             end; intros E; inversion E; reflexivity.
    + reflexivity.
    + reflexivity.
  - rewrite (call_without_system _ _ _ _ _ _ T). reflexivity.
Qed.

(** What a ready run prints before the remote call. *)
Lemma stdout_setup args key framework :
  stdout (setup_events w args key framework) =
    [Msg.reading_framework (CODEWAY_PROMPT_FILENAME w); Msg.reading_code_files]
    ++ map Msg.processing (files args)
    ++ [Msg.successfully_read (length (successfully_read_files w (files args)))]
    ++ stdout (verbose_events w args framework).
Proof.
  unfold setup_events. rewrite !stdout_app, stdout_file_events. reflexivity.
Qed.

(** None of these lines is the banner of the response block. *)
Lemma banner_not_in_setup args key framework :
  ~ In Msg.response_banner
      (stdout (setup_events w args key framework) ++ [Msg.sending (model args)]).
Proof.
  rewrite stdout_setup. intros H.
  repeat (apply in_app_or in H; destruct H as [H|H]).
  - destruct H as [H|[H|[]]]; discriminate H.
  - apply in_map_iff in H. destruct H as (p & H & _). discriminate H.
  - destruct H as [H|[]]. discriminate H.
  - unfold verbose_events in H. destruct (verbose args); [|contradiction].
    cbn in H.
    repeat match goal with
           | H : _ \/ _ |- _ => destruct H as [H|H]
           | H : _ = _ |- _ => discriminate H
           | H : False |- _ => contradiction
           end.
  - destruct H as [H|[]]. discriminate H.
Qed.

End Output.

(** A list of lines that ends with a response block and holds the banner
    nowhere before it holds exactly one block. *)
Lemma count_blocks_single (before : list string) (text : string) :
  ~ In Msg.response_banner before ->
  count_blocks (before ++ [Msg.response_banner; text; Msg.response_rule]) = 1.
Proof.
  induction before as [|line rest IH]; intros H.
  - cbn [app count_blocks block_starts]. rewrite !String.eqb_refl. reflexivity.
  - cbn [app count_blocks]. rewrite IH by (intros I; apply H; now right).
    assert (N : String.eqb line Msg.response_banner = false).
    { apply String.eqb_neq. intros E. apply H. now left. }
    unfold block_starts.
    destruct (rest ++ [Msg.response_banner; text; Msg.response_rule])
      as [|x [|y z]]; rewrite ?N; reflexivity.
Qed.

(** ** Ready runs *)

Section ReadyRuns.
Variable w : World.
Variable args : Args.
Variables (key : string) (client : Anthropic) (framework : string).
Hypothesis R : ready w args key client framework.

(** The call returned a text: status 0, and the response block closes
    standard output. *)
Lemma ready_run_prints text :
  snd (call_of_main w args client framework) = Returned (Some text) ->
  exit_status (main w args) = 0%Z /\
  stdout (fst (main w args)) =
    (stdout (setup_events w args key framework) ++ [Msg.sending (model args)])
    ++ [Msg.response_banner; text; Msg.response_rule].
Proof.
  intros Hcall. unfold call_of_main in *.
  pose proof (stdout_call w client (model args) (max_tokens args)
                (Some framework) (user_prompt_of w (files args))) as S.
  destruct (call_claude_api w client (model args) (max_tokens args)
              (Some framework) (user_prompt_of w (files args)))
    as [l o] eqn:E.
  cbn [snd] in Hcall. subst o. cbn [fst] in S.
  rewrite (main_ready w args key client framework l (Some text) R E).
  split; [reflexivity|].
  cbn [fst]. rewrite !stdout_app, S, <- app_assoc. reflexivity.
Qed.

(** The call returned the failure signal: status 1, and the failure notice
    closes the diagnostic stream. *)
Lemma ready_run_fails :
  snd (call_of_main w args client framework) = Returned None ->
  exit_status (main w args) = 1%Z /\
  stderr (fst (main w args)) =
    stderr (setup_events w args key framework) ++ stderr (fst (call_of_main w args client framework))
    ++ [Msg.failed_analysis].
Proof.
  intros Hcall. unfold call_of_main in *.
  destruct (call_claude_api w client (model args) (max_tokens args)
              (Some framework) (user_prompt_of w (files args)))
    as [l o] eqn:E.
  cbn [snd] in Hcall. subst o.
  rewrite (main_ready w args key client framework l None R E).
  split; [reflexivity|].
  cbn [fst]. rewrite !stderr_app. reflexivity.
Qed.

(** A ready run with a framework document that is not empty sends exactly
    one request: the framework as the system prompt, the assembled payload
    as the one user message. *)
Lemma ready_run_sends_one_request :
  framework <> "" ->
  requests (fst (main w args)) = [request_of w args framework].
Proof.
  intros Hs.
  destruct (call_claude_api_returns w client (model args) (max_tokens args)
              (Some framework) (user_prompt_of w (files args))) as (l & o & E).
  rewrite (main_ready w args key client framework l o R E). cbn [fst].
  rewrite !requests_app.
  assert (Q : requests (setup_events w args key framework) = []).
  { unfold setup_events. rewrite !requests_app, requests_file_events.
    unfold verbose_events. destruct (verbose args); reflexivity. }
  assert (Q' : requests (render o) = []) by (destruct o; reflexivity).
  rewrite Q, Q', app_nil_r. cbn [app].
  revert E. rewrite (call_with_system w client _ _ _ _ Hs).
  unfold print, eprint. rewrite !bind_emit. intros E.
  apply (f_equal fst) in E. cbn [fst] in E. subst l.
  unfold requests. cbn [flat_map app]. fold requests. unfold request_of. f_equal.
  destruct (messages_create w client
              (request (model args) (max_tokens args) framework
                 (user_prompt_of w (files args)))) as [m|e|c r|e|e].
  - destruct (content_raises m) as [ce|]; [reflexivity|].
    destruct (content_list m) as [bs|].
    + destruct (truthy (first_text bs)); reflexivity.
    + destruct (text_attribute m); reflexivity.
  - reflexivity.
  - rewrite bind_emit. destruct (status_guidance_returns c r) as [g G].
    rewrite G. cbn [fst snd bind app]. revert G.
    unfold status_guidance, eprint, emit, ret.
    repeat match goal with
           | |- context [if ?b then _ else _] => destruct b
           end; intros G; inversion G; reflexivity.
  - reflexivity.
  - reflexivity.
Qed.

End ReadyRuns.

(** ** The first text block *)

Lemma first_text_none (bs : list block) :
  (forall e, In e bs -> block_type e <> "text") -> first_text bs = None.
Proof.
  induction bs as [|e bs IH]; intros H; [reflexivity|].
  cbn [first_text].
  destruct (String.eqb_spec (block_type e) "text") as [T|_].
  - now elim (H e (or_introl eq_refl)).
  - apply IH. intros x Hx. apply H. now right.
Qed.

Lemma first_text_found (before : list block) (b : block) (after : list block) :
  (forall e, In e before -> block_type e <> "text") ->
  block_type b = "text" ->
  first_text (before ++ b :: after) = Some (block_text b).
Proof.
  induction before as [|e before IH]; intros H T; cbn [app first_text].
  - rewrite T. reflexivity.
  - destruct (String.eqb_spec (block_type e) "text") as [Te|_].
    + now elim (H e (or_introl eq_refl)).
    + apply IH; [|exact T]. intros x Hx. apply H. now right.
Qed.

Lemma first_text_empty (before : list block) (b : block) (after : list block) :
  (forall e, In e before -> block_type e = "text" -> block_text e = "") ->
  block_type b = "text" -> block_text b = "" ->
  first_text (before ++ b :: after) = Some "".
Proof.
  induction before as [|e before IH]; intros H T X; cbn [app first_text].
  - rewrite T, X. reflexivity.
  - destruct (String.eqb_spec (block_type e) "text") as [Te|_].
    + now rewrite (H e (or_introl eq_refl) Te).
    + apply IH; [|exact T|exact X]. intros x Hx. apply H. now right.
Qed.

(** What the remote-call operation makes of a list of blocks. *)
Lemma call_blocks w client model max_tokens system user_prompt m bs :
  system <> "" ->
  messages_create w client (request model max_tokens system user_prompt) = Answer m ->
  shape m = ContentBlocks bs ->
  call_claude_api w client model max_tokens (Some system) user_prompt =
    (Stdout (Msg.sending model) ::
     Create client (request model max_tokens system user_prompt) ::
     match bs with
     | [] => [Stderr Msg.unexpected_structure;
              Stderr (Msg.full_response (message_str m))]
     | _ => if truthy (first_text bs) then [] else [Stderr Msg.no_text_content]
     end,
     Returned (if truthy (first_text bs) then first_text bs else Some "")).
Proof.
  intros Hs Ha Hm. destruct bs as [|b bs].
  - now rewrite (call_no_blocks w client model max_tokens system user_prompt m Hs Ha Hm).
  - now rewrite (call_content_blocks w client model max_tokens system user_prompt
                   m b bs Hs Ha Hm).
Qed.

Lemma status_guidance_events (status_code : Z) (response : string) :
  status_guidance status_code response =
    (if (status_code =? 401)%Z then [Stderr Msg.hint_credential]
     else if (status_code =? 429)%Z then [Stderr Msg.hint_rate_limit]
     else if (status_code =? 400)%Z then
       if overflow_wording response then [Stderr Msg.hint_context_window]
       else [Stderr Msg.hint_bad_request]
     else [],
     Returned tt).
Proof.
  unfold status_guidance, overflow_wording.
  repeat match goal with
         | |- context [if ?b then _ else _] => destruct b
         end; reflexivity.
Qed.

(** ** Every run ends with status 0 or 1 *)

Lemma successfully_read_inv w paths :
  successfully_read_files w paths <> [] ->
  exists p, In p paths /\ readable w p.
Proof.
  induction paths as [|q rest IH]; intros H; [now elim H|].
  destruct (file_content w q) as [c|] eqn:E.
  - exists q. split; [now left|]. apply file_content_readable. now rewrite E.
  - unfold successfully_read_files in H. cbn [flat_map] in H. rewrite E in H.
    destruct (IH H) as (p & Hin & Hr). exists p. split; [now right | exact Hr].
Qed.

(** [main] always leaves through [sys.exit], with 0 or with 1. *)
Lemma main_exits (w : World) (args : Args) :
  snd (main w args) = SystemExit 0 \/ snd (main w args) = SystemExit 1.
Proof.
  destruct (truthy (environ w API_KEY_ENV_VAR)) eqn:T.
  - apply truthy_true in T. destruct T as (key & E & N).
    destruct (Anthropic_new w key) as [client|str_e] eqn:C.
    + destruct (open_read w (CODEWAY_PROMPT_FILENAME w)) as [fw| |e] eqn:F.
      * destruct (successfully_read_files w (files args)) as [|x r] eqn:Z.
        -- right. now rewrite (main_without_files w args key client fw E N C F Z).
        -- destruct (successfully_read_inv w (files args)) as (p & Hin & Hr).
           { rewrite Z. discriminate. }
           destruct (call_claude_api_returns w client (model args) (max_tokens args)
                       (Some fw) (user_prompt_of w (files args))) as (l & o & Hc).
           assert (R : ready w args key client fw).
           { repeat split; try assumption. now exists p. }
           rewrite (main_ready w args key client fw l o R Hc).
           destruct o; [left | right]; reflexivity.
      * right. destruct (main_without_framework w args key client E N C) as [d M].
        { intros s. rewrite F. discriminate. }
        now rewrite M.
      * right. destruct (main_without_framework w args key client E N C) as [d M].
        { intros s. rewrite F. discriminate. }
        now rewrite M.
    + right. now rewrite (main_without_client w args key str_e E N C).
  - right. now rewrite (main_without_key w args T).
Qed.

(** A ready run opens the framework document, then the given paths, one by
    one in the order of the command line. *)
Lemma ready_run_opens w args key client framework :
  ready w args key client framework ->
  opened (fst (main w args)) = CODEWAY_PROMPT_FILENAME w :: files args.
Proof.
  intros R.
  destruct (call_claude_api_returns w client (model args) (max_tokens args)
              (Some framework) (user_prompt_of w (files args))) as (l & o & Hc).
  rewrite (main_ready w args key client framework l o R Hc). cbn [fst].
  unfold setup_events. rewrite !opened_app, opened_file_events.
  assert (O1 : opened (verbose_events w args framework) = []).
  { unfold verbose_events. destruct (verbose args); reflexivity. }
  assert (O2 : opened (render o) = []) by (destruct o; reflexivity).
  assert (O3 : opened l = []).
  { destruct (truthy (Some framework)) eqn:T.
    - apply truthy_true in T. destruct T as (s & Es & Hs). inversion Es; subst s.
      revert Hc. rewrite (call_with_system w client _ _ _ _ Hs).
      unfold print, eprint. rewrite !bind_emit. intros Hc.
      apply (f_equal fst) in Hc. cbn [fst] in Hc. subst l.
      unfold opened. cbn [flat_map app]. fold opened.
      destruct (messages_create w client _) as [m|e|c r|e|e].
      + destruct (content_raises m) as [ce|]; [reflexivity|].
        destruct (content_list m) as [bs|].
        * destruct (truthy (first_text bs)); reflexivity.
        * destruct (text_attribute m); reflexivity.
      + reflexivity.
      + rewrite bind_emit, status_guidance_events. cbn [fst snd bind app].
        repeat match goal with
               | |- context [if ?b then _ else _] => destruct b
               end; reflexivity.
      + reflexivity.
      + reflexivity.
    - rewrite (call_without_system w client _ _ _ _ T) in Hc.
      inversion Hc. reflexivity. }
  rewrite O1, O2, O3, !app_nil_r. reflexivity.
Qed.

(** The scenario of the specification: one file reads, one is absent. *)
Example partial_failure_scenario :
  let run := main Sample.w (default_args ["src/a.py"; "missing.py"]) in
  exit_status run = 0%Z /\
  stderr (fst run) = [ Msg.file_not_found "missing.py"; Msg.skipping "missing.py" ] /\
  requests (fst run) =
    [ request DEFAULT_MODEL DEFAULT_MAX_TOKENS "The Code Way."
        (final_user_prompt 1
           ("--- Start of code file: a.py ---" ++ nl ++ "print(1)" ++ nl ++
            "--- End of code file: a.py ---" ++ nl)) ].
Proof. vm_compute. repeat split. Qed.

(** ** Properties of the run *)

Lemma sample_ready (r : api_result) (args : Args) :
  In "src/a.py" (files args) ->
  ready (answering Sample.w r) args "sk-test" Inputs.client "The Code Way.".
Proof.
  intros H. repeat split; try reflexivity; try discriminate.
  exists "src/a.py". split; [exact H|]. now exists "print(1)".
Defined.

(** C1. A run in which the credential is set, the client is built, the
    framework document reads, at least one of the given paths reads and the
    remote-call operation returns a text exits with status 0 and prints
    exactly one response block on standard output: the banner, that text
    and the closing rule, after the lines of the setup, none of which is
    the banner.  Paths that failed to read change neither. *)
Theorem readable_file_run_succeeds :
  forall (w : World) (args : Args) key client framework text,
    ready w args key client framework ->
    snd (call_claude_api w client (model args) (max_tokens args) (Some framework)
           (user_prompt_of w (files args))) = Returned (Some text) ->
    exit_status (main w args) = 0%Z /\
    count_blocks (stdout (fst (main w args))) = 1 /\
    stdout (fst (main w args)) =
      (stdout (setup_events w args key framework) ++ [Msg.sending (model args)])
      ++ [Msg.response_banner; text; Msg.response_rule].
Proof.
  intros w args key client framework text R Hcall.
  destruct (ready_run_prints w args key client framework R text Hcall)
    as [Hexit Hout].
  split; [exact Hexit | split; [|exact Hout]].
  rewrite Hout. apply count_blocks_single. apply banner_not_in_setup.
Qed.

Lemma readable_file_run_succeeds_witness :
  exit_status (main Sample.w Inputs.mixed_args) = 0%Z /\
  count_blocks (stdout (fst (main Sample.w Inputs.mixed_args))) = 1.
Proof.
  pose proof (readable_file_run_succeeds Sample.w Inputs.mixed_args
                "sk-test" Inputs.client "The Code Way." "Looks fine.") as H.
  destruct H as (H0 & H1 & _).
  - repeat split; try reflexivity; try discriminate.
    exists "src/a.py". split; [now left|]. now exists "print(1)".
  - vm_compute. reflexivity.
  - split; [exact H0 | exact H1].
Defined.

(** C2. A run in which every given path fails to read exits with status 1
    and sends no request; when the setup got as far as the files, the
    zero-files error is on the diagnostic stream. *)
Theorem no_readable_file_exits_before_call :
  forall (w : World) (args : Args),
    (forall p, In p (files args) -> unreadable w p) ->
    exit_status (main w args) = 1%Z /\
    requests (fst (main w args)) = [] /\
    (forall key client framework,
        environ w API_KEY_ENV_VAR = Some key -> key <> "" ->
        Anthropic_new w key = inl client ->
        open_read w (CODEWAY_PROMPT_FILENAME w) = Content framework ->
        In Msg.no_valid_files (stderr (fst (main w args)))).
Proof.
  intros w args H.
  pose proof (successfully_read_none w (files args) H) as Z.
  assert (G : forall key client framework,
             environ w API_KEY_ENV_VAR = Some key -> key <> "" ->
             Anthropic_new w key = inl client ->
             open_read w (CODEWAY_PROMPT_FILENAME w) = Content framework ->
             exit_status (main w args) = 1%Z /\
             requests (fst (main w args)) = [] /\
             In Msg.no_valid_files (stderr (fst (main w args)))).
  { intros key client framework E N C F.
    rewrite (main_without_files w args key client framework E N C F Z).
    cbn [fst]. rewrite !requests_app, !stderr_app, requests_file_events.
    repeat split. apply in_or_app. right. apply in_or_app. right. now left. }
  assert (X : exit_status (main w args) = 1%Z /\ requests (fst (main w args)) = []).
  { destruct (truthy (environ w API_KEY_ENV_VAR)) eqn:T.
    - apply truthy_true in T. destruct T as (key & E & N).
      destruct (Anthropic_new w key) as [client|str_e] eqn:C.
      + destruct (open_read w (CODEWAY_PROMPT_FILENAME w)) as [fw| |e] eqn:F.
        * destruct (G key client fw E N C eq_refl) as (G1 & G2 & _). now split.
        * destruct (main_without_framework w args key client E N C) as [d M].
          { intros s. rewrite F. discriminate. }
          rewrite M. now split.
        * destruct (main_without_framework w args key client E N C) as [d M].
          { intros s. rewrite F. discriminate. }
          rewrite M. now split.
      + rewrite (main_without_client w args key str_e E N C). now split.
    - rewrite (main_without_key w args T). now split. }
  destruct X as [X1 X2]. repeat split; [exact X1 | exact X2 |].
  intros key client framework E N C F.
  now destruct (G key client framework E N C F) as (_ & _ & G3).
Qed.

Lemma no_readable_file_exits_before_call_witness :
  exit_status (main Sample.w Inputs.unreadable_args) = 1%Z /\
  requests (fst (main Sample.w Inputs.unreadable_args)) = [].
Proof.
  pose proof (no_readable_file_exits_before_call Sample.w Inputs.unreadable_args) as H.
  destruct H as (H0 & H1 & _).
  - intros p [<-|[<-|[]]] s; vm_compute; discriminate.
  - split; [exact H0 | exact H1].
Defined.

(** C3. A run in which the credential variable is unset or empty exits
    with status 1 and opens no file: neither the framework document nor a
    code file is read. *)
Theorem missing_credential_exits_before_reads :
  forall (w : World) (args : Args),
    environ w API_KEY_ENV_VAR = None \/ environ w API_KEY_ENV_VAR = Some "" ->
    exit_status (main w args) = 1%Z /\
    opened (fst (main w args)) = [] /\
    requests (fst (main w args)) = [].
Proof.
  intros w args H.
  assert (T : truthy (environ w API_KEY_ENV_VAR) = false)
    by (destruct H as [-> | ->]; reflexivity).
  rewrite (main_without_key w args T). repeat split.
Qed.

Lemma missing_credential_exits_before_reads_witness :
  exit_status (main (Inputs.without_key Sample.w) Inputs.mixed_args) = 1%Z /\
  opened (fst (main (Inputs.without_key Sample.w) Inputs.mixed_args)) = [].
Proof.
  pose proof (missing_credential_exits_before_reads
                (Inputs.without_key Sample.w) Inputs.mixed_args) as H.
  destruct H as (H0 & H1 & _).
  - left. reflexivity.
  - split; [exact H0 | exact H1].
Defined.

(** C4. A run in which the framework document cannot be read exits with
    status 1 before the loop over the given code files: the only file the
    run may have opened is the framework document, and the heading of the
    loop was not printed. *)
Theorem missing_framework_exits_before_code_files :
  forall (w : World) (args : Args),
    unreadable w (CODEWAY_PROMPT_FILENAME w) ->
    exit_status (main w args) = 1%Z /\
    (opened (fst (main w args)) = [] \/
     opened (fst (main w args)) = [CODEWAY_PROMPT_FILENAME w]) /\
    ~ In Msg.reading_code_files (stdout (fst (main w args))) /\
    (forall p, ~ In (Msg.processing p) (stdout (fst (main w args)))).
Proof.
  intros w args F.
  destruct (truthy (environ w API_KEY_ENV_VAR)) eqn:T.
  - apply truthy_true in T. destruct T as (key & E & N).
    destruct (Anthropic_new w key) as [client|str_e] eqn:C.
    + destruct (main_without_framework w args key client E N C F) as [d M].
      rewrite M. cbn. repeat split.
      * now right.
      * intros [H|[]]. discriminate H.
      * intros p [H|[]]. discriminate H.
    + rewrite (main_without_client w args key str_e E N C). cbn.
      repeat split; [now left | intros [] | intros p []].
  - rewrite (main_without_key w args T). cbn.
    repeat split; [now left | intros [] | intros p []].
Qed.

Lemma missing_framework_exits_before_code_files_witness :
  exit_status (main (Inputs.without_framework Sample.w) Inputs.mixed_args) = 1%Z /\
  opened (fst (main (Inputs.without_framework Sample.w) Inputs.mixed_args))
  = ["/nowhere/prompts/codeway.md"].
Proof.
  pose proof (missing_framework_exits_before_code_files
                (Inputs.without_framework Sample.w) Inputs.mixed_args) as H.
  destruct H as (H0 & _ & _).
  - intros s. vm_compute. discriminate.
  - split; [exact H0 | vm_compute; reflexivity].
Defined.

(** C5. The remote-call operation, called with a system prompt that is
    absent or empty, prints its diagnostic, returns the failure signal and
    sends no request. *)
Theorem empty_system_prompt_sends_nothing :
  forall (w : World) client model max_tokens system_prompt user_prompt,
    system_prompt = None \/ system_prompt = Some "" ->
    snd (call_claude_api w client model max_tokens system_prompt user_prompt)
    = Returned None /\
    stderr (fst (call_claude_api w client model max_tokens system_prompt user_prompt))
    = [Msg.system_prompt_missing] /\
    requests (fst (call_claude_api w client model max_tokens system_prompt user_prompt))
    = [].
Proof.
  intros w client model max_tokens system_prompt user_prompt H.
  assert (T : truthy system_prompt = false)
    by (destruct H as [-> | ->]; reflexivity).
  rewrite (call_without_system w client model max_tokens _ user_prompt T).
  repeat split.
Qed.

Lemma empty_system_prompt_sends_nothing_witness :
  snd (call_claude_api Sample.w Inputs.client DEFAULT_MODEL 4000 (Some "") "code")
  = Returned None /\
  requests (fst (call_claude_api Sample.w Inputs.client DEFAULT_MODEL 4000
                   (Some "") "code")) = [].
Proof.
  pose proof (empty_system_prompt_sends_nothing Sample.w Inputs.client
                DEFAULT_MODEL 4000 (Some "") "code") as H.
  destruct H as (H0 & _ & H1).
  - right. reflexivity.
  - split; [exact H0 | exact H1].
Defined.

(** ** Payload assembly *)

Lemma string_app_assoc (a b c : string) : ((a ++ b) ++ c = a ++ (b ++ c))%string.
Proof. induction a as [|x a IH]; simpl; [reflexivity | now rewrite IH]. Qed.

Lemma string_app_empty_r (a : string) : (a ++ "")%string = a.
Proof. induction a as [|x a IH]; simpl; [reflexivity | now rewrite IH]. Qed.

Lemma join_cons (sep x : string) (r : list string) :
  r <> [] -> join sep (x :: r) = (x ++ sep ++ join sep r)%string.
Proof. destruct r; [contradiction | reflexivity]. Qed.

Lemma join_app (sep : string) (a b : list string) :
  a <> [] -> b <> [] ->
  join sep (a ++ b) = (join sep a ++ sep ++ join sep b)%string.
Proof.
  induction a as [|x a IH]; intros Ha Hb; [contradiction|].
  destruct a as [|y a].
  - cbn [app]. now rewrite join_cons.
  - change ((x :: y :: a) ++ b) with (x :: ((y :: a) ++ b)).
    rewrite join_cons by discriminate.
    rewrite IH by (discriminate || assumption).
    rewrite (join_cons sep x (y :: a)) by discriminate.
    now rewrite !string_app_assoc.
Qed.

Lemma payload_segments_cons_read w p c rest :
  open_read w p = Content c ->
  payload_segments w (p :: rest) = three_segments (p, c) ++ payload_segments w rest.
Proof.
  intros E. unfold payload_segments, successfully_read_files, file_content.
  cbn [flat_map]. rewrite E. reflexivity.
Qed.

Lemma payload_segments_cons_skipped w p rest :
  unreadable w p -> payload_segments w (p :: rest) = payload_segments w rest.
Proof.
  intros U. unfold payload_segments, successfully_read_files.
  cbn [flat_map]. rewrite (proj1 (file_content_unreadable w p) U). reflexivity.
Qed.

(** C6. The loop over the given paths returns, for the files that read and
    in the order of the command line, three segments each: the start marker
    with the base name, the raw content, the end marker with the base name
    and its trailing newline.  In the assembled text the three segments of a
    file stand between the text of the earlier files and the text of the
    later files, joined by newlines, so the end marker is followed by a
    blank line. *)
Theorem payload_keeps_argument_order :
  forall (w : World) (earlier later : list string) (p c : string),
    open_read w p = Content c ->
    snd (read_code_files w (earlier ++ p :: later) [] 0) =
      Returned (payload_segments w (earlier ++ p :: later),
                length (successfully_read_files w (earlier ++ p :: later))) /\
    payload_segments w (earlier ++ p :: later) =
      payload_segments w earlier ++
      [ ("--- Start of code file: " ++ basename p ++ " ---")%string;
        c;
        ("--- End of code file: " ++ basename p ++ " ---" ++ nl)%string ] ++
      payload_segments w later /\
    combined_code_text w (earlier ++ p :: later) =
      (text_before w earlier ++
       ("--- Start of code file: " ++ basename p ++ " ---") ++ nl ++
       c ++ nl ++
       ("--- End of code file: " ++ basename p ++ " ---" ++ nl) ++
       text_after w later)%string.
Proof.
  intros w earlier later p c E.
  assert (S : payload_segments w (earlier ++ p :: later) =
              payload_segments w earlier ++ three_segments (p, c) ++
              payload_segments w later).
  { now rewrite payload_segments_app, (payload_segments_cons_read w p c later E). }
  split; [|split].
  - rewrite read_code_files_spec. reflexivity.
  - exact S.
  - unfold combined_code_text, text_before, text_after. rewrite S.
    fold (Msg.start_of_code_file (basename p)).
    fold (Msg.end_of_code_file (basename p)).
    unfold three_segments. cbn [fst snd].
    set (s := Msg.start_of_code_file (basename p)).
    set (e := Msg.end_of_code_file (basename p)).
    assert (J : join nl ([s; c; e] ++ payload_segments w later) =
                (s ++ nl ++ c ++ nl ++ e ++
                 match payload_segments w later with
                 | [] => ""
                 | _ => nl ++ combined_code_text w later
                 end)%string).
    { unfold combined_code_text.
      destruct (payload_segments w later) as [|x r].
      - cbn [app join]. now rewrite string_app_empty_r.
      - cbn [app]. rewrite !join_cons by discriminate. reflexivity. }
    unfold combined_code_text in *.
    destruct (payload_segments w earlier) as [|x r] eqn:B.
    + cbn [app]. exact J.
    + rewrite join_app; [|discriminate|discriminate].
      rewrite J, !string_app_assoc. reflexivity.
Qed.

Lemma payload_keeps_argument_order_witness :
  combined_code_text Sample.w ["src/a.py"; "missing.py"; "b.py"; "locked.py"] =
    (text_before Sample.w ["src/a.py"; "missing.py"] ++
     "--- Start of code file: b.py ---" ++ nl ++
     "x = 2" ++ nl ++
     ("--- End of code file: b.py ---" ++ nl) ++
     text_after Sample.w ["locked.py"])%string.
Proof.
  pose proof (payload_keeps_argument_order Sample.w
                ["src/a.py"; "missing.py"] ["locked.py"] "b.py" "x = 2") as H.
  destruct H as (_ & _ & H).
  - reflexivity.
  - exact H.
Defined.

(** ** The answer of the service *)

(** C7. When the answer is a list of content blocks none of which is typed
    text, the remote-call operation prints a warning and returns the empty
    text, not the failure signal; a ready run then prints an empty response
    block and exits with status 0. *)
Theorem no_text_block_is_empty_text :
  forall (w : World) (m : message) (bs : list block),
    shape m = ContentBlocks bs ->
    (forall e, In e bs -> block_type e <> "text") ->
    (forall client model max_tokens system user_prompt,
        system <> "" ->
        messages_create w client (request model max_tokens system user_prompt)
        = Answer m ->
        snd (call_claude_api w client model max_tokens (Some system) user_prompt)
        = Returned (Some "") /\
        stderr (fst (call_claude_api w client model max_tokens (Some system)
                       user_prompt))
        = match bs with
          | [] => [Msg.unexpected_structure; Msg.full_response (message_str m)]
          | _ => [Msg.no_text_content]
          end) /\
    (forall args key client framework,
        ready w args key client framework -> framework <> "" ->
        messages_create w client (request_of w args framework) = Answer m ->
        exit_status (main w args) = 0%Z /\
        stdout (fst (main w args)) =
          (stdout (setup_events w args key framework) ++ [Msg.sending (model args)])
          ++ [Msg.response_banner; ""; Msg.response_rule]).
Proof.
  intros w m bs Hm Hno.
  assert (C : forall client model max_tokens system user_prompt,
             system <> "" ->
             messages_create w client (request model max_tokens system user_prompt)
             = Answer m ->
             snd (call_claude_api w client model max_tokens (Some system) user_prompt)
             = Returned (Some "") /\
             stderr (fst (call_claude_api w client model max_tokens (Some system)
                            user_prompt))
             = match bs with
               | [] => [Msg.unexpected_structure; Msg.full_response (message_str m)]
               | _ => [Msg.no_text_content]
               end).
  { intros client model max_tokens system user_prompt Hs Ha.
    rewrite (call_blocks w client model max_tokens system user_prompt m bs Hs Ha Hm).
    rewrite (first_text_none bs Hno). destruct bs; split; reflexivity. }
  split; [exact C|].
  intros args key client framework R Hs Ha.
  apply (ready_run_prints w args key client framework R "").
  now apply C.
Qed.

Lemma no_text_block_is_empty_text_witness :
  exit_status
    (main (answering Sample.w
             (Answer {| shape := ContentBlocks
                                   [ {| block_type := "tool_use"; block_text := "" |} ];
                        message_str := "Message(...)" |}))
          Inputs.mixed_args) = 0%Z.
Proof.
  pose proof (no_text_block_is_empty_text
                (answering Sample.w
                   (Answer {| shape := ContentBlocks
                                         [ {| block_type := "tool_use"; block_text := "" |} ];
                              message_str := "Message(...)" |}))
                {| shape := ContentBlocks
                              [ {| block_type := "tool_use"; block_text := "" |} ];
                   message_str := "Message(...)" |}
                [ {| block_type := "tool_use"; block_text := "" |} ]) as H.
  destruct H as [_ H].
  - reflexivity.
  - intros e [<-|[]]. vm_compute. discriminate.
  - destruct (H Inputs.mixed_args "sk-test" Inputs.client "The Code Way.") as [H0 _].
    + apply sample_ready. now left.
    + discriminate.
    + reflexivity.
    + exact H0.
Defined.

(** C8. When the answer is a list of content blocks with a single block
    typed text, the remote-call operation returns the text of that block,
    and a ready run prints it inside the banner as it is. *)
Theorem single_text_block_verbatim :
  forall (w : World) (m : message) (before : list block) (b : block)
         (after : list block),
    shape m = ContentBlocks (before ++ b :: after) ->
    block_type b = "text" ->
    (forall e, In e (before ++ after) -> block_type e <> "text") ->
    (forall client model max_tokens system user_prompt,
        system <> "" ->
        messages_create w client (request model max_tokens system user_prompt)
        = Answer m ->
        snd (call_claude_api w client model max_tokens (Some system) user_prompt)
        = Returned (Some (block_text b))) /\
    (forall args key client framework,
        ready w args key client framework -> framework <> "" ->
        messages_create w client (request_of w args framework) = Answer m ->
        exit_status (main w args) = 0%Z /\
        stdout (fst (main w args)) =
          (stdout (setup_events w args key framework) ++ [Msg.sending (model args)])
          ++ [Msg.response_banner; block_text b; Msg.response_rule]).
Proof.
  intros w m before b after Hm Tb Hno.
  assert (F : first_text (before ++ b :: after) = Some (block_text b)).
  { apply first_text_found; [|exact Tb].
    intros e He. apply Hno. apply in_or_app. now left. }
  assert (C : forall client model max_tokens system user_prompt,
             system <> "" ->
             messages_create w client (request model max_tokens system user_prompt)
             = Answer m ->
             snd (call_claude_api w client model max_tokens (Some system) user_prompt)
             = Returned (Some (block_text b))).
  { intros client model max_tokens system user_prompt Hs Ha.
    rewrite (call_blocks w client model max_tokens system user_prompt m _ Hs Ha Hm).
    rewrite F. cbn [snd truthy].
    destruct (String.eqb_spec (block_text b) "") as [->|_]; reflexivity. }
  split; [exact C|].
  intros args key client framework R Hs Ha.
  apply (ready_run_prints w args key client framework R (block_text b)).
  now apply C.
Qed.

Lemma single_text_block_verbatim_witness :
  stdout (fst (main Sample.w (default_args ["b.py"]))) =
    [ "--- Reading Code Way framework from: /opt/codeway/prompts/codeway.md ---";
      "--- Reading Code Files ---";
      "Processing: b.py...";
      "Successfully read 1 code file(s).";
      (nl ++ "Sending request to Claude (model: claude-3-sonnet-20240229)...")%string;
      (nl ++ "--- Code Way Analysis Response ---")%string;
      "Looks fine.";
      "----------------------------------" ].
Proof.
  pose proof (single_text_block_verbatim Sample.w
                {| shape := ContentBlocks
                              [ {| block_type := "text"; block_text := "Looks fine." |} ];
                   message_str := "Message(...)" |}
                [] {| block_type := "text"; block_text := "Looks fine." |} []) as H.
  destruct H as [_ H].
  - reflexivity.
  - reflexivity.
  - intros e [].
  - destruct (H (default_args ["b.py"]) "sk-test" Inputs.client "The Code Way.")
      as [_ H1].
    + repeat split; try reflexivity; try discriminate.
      exists "b.py". split; [now left|]. now exists "x = 2".
    + discriminate.
    + reflexivity.
    + rewrite H1. vm_compute. reflexivity.
Defined.

(** ** Status errors *)

(** C9. A status error is reported with its numeric status, the
    remote-call operation returns the failure signal and a ready run exits
    with status 1.  For a status 400, though, the error detail of the server
    is never looked at: the source searches [str(e.response)], which holds
    the status and the reason phrase only.  So a bad request whose detail
    speaks of the context length gets the hint of the malformed input, not
    the hint of the context window, whatever the detail is. *)
Theorem bad_request_detail_is_not_read :
  forall (w : World) (detail : string),
    let e := {| err_status := 400; err_reason := "Bad Request";
                err_detail := detail |} in
    let report :=
      (Msg.warn ++ "API Status Error: 400 - <Response [400 Bad Request]>")%string in
    (forall client model max_tokens system user_prompt,
        system <> "" ->
        messages_create w client (request model max_tokens system user_prompt)
        = raise_status_error e ->
        snd (call_claude_api w client model max_tokens (Some system) user_prompt)
        = Returned None /\
        stderr (fst (call_claude_api w client model max_tokens (Some system)
                       user_prompt))
        = [report; Msg.hint_bad_request]) /\
    (forall args key client framework,
        ready w args key client framework -> framework <> "" ->
        messages_create w client (request_of w args framework)
        = raise_status_error e ->
        exit_status (main w args) = 1%Z /\
        stderr (fst (main w args)) =
          stderr (setup_events w args key framework)
          ++ [report; Msg.hint_bad_request; Msg.failed_analysis]).
Proof.
  intros w detail e report.
  assert (C : forall client model max_tokens system user_prompt,
             system <> "" ->
             messages_create w client (request model max_tokens system user_prompt)
             = raise_status_error e ->
             call_claude_api w client model max_tokens (Some system) user_prompt =
               ([Stdout (Msg.sending model);
                 Create client (request model max_tokens system user_prompt);
                 Stderr report; Stderr Msg.hint_bad_request],
                Returned None)).
  { intros client model max_tokens system user_prompt Hs Ha.
    rewrite (call_status_error w client model max_tokens system user_prompt
               400 (str_response e) Hs Ha).
    rewrite status_guidance_events. reflexivity. }
  split.
  - intros client model max_tokens system user_prompt Hs Ha.
    rewrite (C client model max_tokens system user_prompt Hs Ha). split; reflexivity.
  - intros args key client framework R Hs Ha.
    pose proof (C client (model args) (max_tokens args) framework
                  (user_prompt_of w (files args)) Hs Ha) as E.
    destruct (ready_run_fails w args key client framework R) as [X1 X2].
    { unfold call_of_main. now rewrite E. }
    split; [exact X1|]. rewrite X2. unfold call_of_main. rewrite E. reflexivity.
Qed.

Lemma bad_request_detail_is_not_read_witness :
  overflow_wording "prompt is too long: context_length_exceeded" = true /\
  stderr (fst (call_claude_api
                 (answering Sample.w
                    (raise_status_error
                       {| err_status := 400; err_reason := "Bad Request";
                          err_detail := "prompt is too long: context_length_exceeded" |}))
                 Inputs.client DEFAULT_MODEL 4000 (Some "The Code Way.") "code"))
  = [ (Msg.warn ++ "API Status Error: 400 - <Response [400 Bad Request]>")%string;
      Msg.hint_bad_request ].
Proof.
  split; [reflexivity|].
  pose proof (bad_request_detail_is_not_read
                (answering Sample.w
                   (raise_status_error
                      {| err_status := 400; err_reason := "Bad Request";
                         err_detail := "prompt is too long: context_length_exceeded" |}))
                "prompt is too long: context_length_exceeded") as H.
  cbv zeta in H. destruct H as [H _].
  destruct (H Inputs.client DEFAULT_MODEL 4000%Z "The Code Way." "code") as [_ H1].
  - discriminate.
  - reflexivity.
  - exact H1.
Defined.

(** ** Empty text *)

(** C10. When the first block typed text of the answer has the empty text,
    the remote-call operation prints the warning of the missing text
    content and returns the empty text, not the failure signal; a ready
    run prints an empty response block and exits with status 0.  The value
    returned, standard output and the exit status are those of an answer
    with no block typed text at all, and when that answer is not the
    empty list the two runs are the same event for event. *)
Theorem empty_text_block_like_no_text_block :
  forall (w : World) (args : Args) key client framework
         (m : message) (before : list block) (b : block) (after : list block)
         (m' : message) (bs' : list block),
    ready w args key client framework -> framework <> "" ->
    shape m = ContentBlocks (before ++ b :: after) ->
    block_type b = "text" -> block_text b = "" ->
    (forall e, In e before -> block_type e = "text" -> block_text e = "") ->
    shape m' = ContentBlocks bs' ->
    (forall e, In e bs' -> block_type e <> "text") ->
    let call r :=
      call_claude_api (answering w r) client (model args) (max_tokens args)
        (Some framework) (user_prompt_of w (files args)) in
    let run r := main (answering w r) args in
    snd (call (Answer m)) = Returned (Some "") /\
    stderr (fst (call (Answer m))) = [Msg.no_text_content] /\
    exit_status (run (Answer m)) = 0%Z /\
    stdout (fst (run (Answer m))) =
      (stdout (setup_events w args key framework) ++ [Msg.sending (model args)])
      ++ [Msg.response_banner; ""; Msg.response_rule] /\
    snd (call (Answer m')) = snd (call (Answer m)) /\
    exit_status (run (Answer m')) = exit_status (run (Answer m)) /\
    stdout (fst (run (Answer m'))) = stdout (fst (run (Answer m))) /\
    (bs' <> [] -> run (Answer m') = run (Answer m)).
Proof.
  intros w args key client framework m before b after m' bs'
         R Hs Hm Tb Xb Hbefore Hm' Hno call run.
  assert (F : first_text (before ++ b :: after) = Some "")
    by now apply first_text_empty.
  assert (F' : first_text bs' = None) by now apply first_text_none.
  assert (Rr : forall r, ready (answering w r) args key client framework)
    by (intros r; exact R).
  assert (E : call (Answer m) =
              ([Stdout (Msg.sending (model args));
                Create client (request_of w args framework);
                Stderr Msg.no_text_content],
               Returned (Some ""))).
  { subst call. cbv beta.
    rewrite (call_blocks (answering w (Answer m)) client (model args)
               (max_tokens args) framework (user_prompt_of w (files args)) m
               (before ++ b :: after) Hs eq_refl Hm).
    rewrite F. destruct before; reflexivity. }
  assert (E' : call (Answer m') =
               (Stdout (Msg.sending (model args)) ::
                Create client (request_of w args framework) ::
                match bs' with
                | [] => [Stderr Msg.unexpected_structure;
                         Stderr (Msg.full_response (message_str m'))]
                | _ => [Stderr Msg.no_text_content]
                end,
                Returned (Some ""))).
  { subst call. cbv beta.
    rewrite (call_blocks (answering w (Answer m')) client (model args)
               (max_tokens args) framework (user_prompt_of w (files args)) m'
               bs' Hs eq_refl Hm').
    rewrite F'. destruct bs'; reflexivity. }
  assert (M : forall r l,
             call r = (l, Returned (Some "")) ->
             run r = (setup_events w args key framework ++ l ++ render (Some ""),
                      SystemExit 0)).
  { intros r l Hc. subst run call. cbv beta in *.
    apply (main_ready (answering w r) args key client framework l (Some "") (Rr r) Hc). }
  pose proof (ready_run_prints (answering w (Answer m)) args key client framework
                (Rr _) "") as P.
  pose proof (ready_run_prints (answering w (Answer m')) args key client framework
                (Rr _) "") as P'.
  destruct P as [P1 P2].
  { change (snd (call (Answer m)) = Returned (Some "")). now rewrite E. }
  destruct P' as [P1' P2'].
  { change (snd (call (Answer m')) = Returned (Some "")). now rewrite E'. }
  repeat split.
  - now rewrite E.
  - now rewrite E.
  - exact P1.
  - exact P2.
  - now rewrite E, E'.
  - subst run. cbv beta. now rewrite P1, P1'.
  - subst run. cbv beta. rewrite P2, P2'. reflexivity.
  - intros Hne. rewrite (M _ _ E), (M _ _ E').
    destruct bs' as [|x r]; [contradiction | reflexivity].
Qed.

Lemma empty_text_block_like_no_text_block_witness :
  main (answering Sample.w
          (Answer {| shape := ContentBlocks
                                [ {| block_type := "tool_use"; block_text := "" |} ];
                     message_str := "Message(tool)" |}))
       Inputs.mixed_args
  = main (answering Sample.w
            (Answer {| shape := ContentBlocks
                                  [ {| block_type := "thinking"; block_text := "" |};
                                    {| block_type := "text"; block_text := "" |};
                                    {| block_type := "text"; block_text := "late" |} ];
                       message_str := "Message(text)" |}))
         Inputs.mixed_args.
Proof.
  pose proof (empty_text_block_like_no_text_block Sample.w Inputs.mixed_args
                "sk-test" Inputs.client "The Code Way."
                {| shape := ContentBlocks
                              [ {| block_type := "thinking"; block_text := "" |};
                                {| block_type := "text"; block_text := "" |};
                                {| block_type := "text"; block_text := "late" |} ];
                   message_str := "Message(text)" |}
                [ {| block_type := "thinking"; block_text := "" |} ]
                {| block_type := "text"; block_text := "" |}
                [ {| block_type := "text"; block_text := "late" |} ]
                {| shape := ContentBlocks
                              [ {| block_type := "tool_use"; block_text := "" |} ];
                   message_str := "Message(tool)" |}
                [ {| block_type := "tool_use"; block_text := "" |} ]) as H.
  cbv zeta in H.
  destruct H as (_ & _ & _ & _ & _ & _ & _ & H).
  - apply (sample_ready (Answer {| shape := Unrecognized; message_str := "" |})).
    now left.
  - discriminate.
  - reflexivity.
  - reflexivity.
  - reflexivity.
  - intros e [<-|[]]. discriminate.
  - reflexivity.
  - intros e [<-|[]]. vm_compute. discriminate.
  - apply H. discriminate.
Defined.

(** ** Further properties of the run *)

(** Every run has one of the five shapes. *)
Lemma main_shape (w : World) (args : Args) : run_shape w args (main w args).
Proof.
  destruct (truthy (environ w API_KEY_ENV_VAR)) eqn:T.
  - apply truthy_true in T. destruct T as (key & E & N).
    destruct (Anthropic_new w key) as [client|str_e] eqn:C.
    + destruct (open_read w (CODEWAY_PROMPT_FILENAME w)) as [fw| |e] eqn:F.
      * destruct (successfully_read_files w (files args)) as [|x r] eqn:Z.
        -- rewrite (main_without_files w args key client fw E N C F Z).
           now apply (NoFiles w args key client fw).
        -- destruct (successfully_read_inv w (files args)) as (p & Hin & Hr).
           { rewrite Z. discriminate. }
           destruct (call_claude_api_returns w client (model args) (max_tokens args)
                       (Some fw) (user_prompt_of w (files args))) as (l & o & Hc).
           assert (R : ready w args key client fw).
           { repeat split; try assumption. now exists p. }
           rewrite (main_ready w args key client fw l o R Hc).
           now apply (Ready w args key client fw).
      * assert (U : unreadable w (CODEWAY_PROMPT_FILENAME w)).
        { intros s. rewrite F. discriminate. }
        destruct (main_without_framework w args key client E N C U) as [d M].
        rewrite M. now apply (NoFramework w args key client).
      * assert (U : unreadable w (CODEWAY_PROMPT_FILENAME w)).
        { intros s. rewrite F. discriminate. }
        destruct (main_without_framework w args key client E N C U) as [d M].
        rewrite M. now apply (NoFramework w args key client).
    + rewrite (main_without_client w args key str_e E N C).
      now apply (NoClient w args key str_e).
  - rewrite (main_without_key w args T). now apply NoKey.
Qed.

(** The facts that make a run ready are determined by the world. *)
Lemma ready_unique w args key client framework key' client' framework' :
  ready w args key client framework -> ready w args key' client' framework' ->
  key' = key /\ client' = client /\ framework' = framework.
Proof.
  intros (E & _ & C & F & _) (E' & _ & C' & F' & _).
  rewrite E in E'. inversion E'; subst key'.
  rewrite C in C'. inversion C'; subst client'.
  rewrite F in F'. inversion F'; subst framework'. repeat split.
Qed.

(** What the remote-call operation sends. *)
Lemma requests_call w client model max_tokens system_prompt user_prompt :
  requests (fst (call_claude_api w client model max_tokens system_prompt user_prompt))
  = match system_prompt with
    | Some system =>
        if String.eqb system "" then []
        else [request model max_tokens system user_prompt]
    | None => []
    end.
Proof.
  destruct (truthy system_prompt) eqn:T.
  - apply truthy_true in T. destruct T as (s & -> & Hs).
    destruct (String.eqb_spec s ""); [contradiction|].
    rewrite (call_with_system w client model max_tokens s user_prompt Hs).
    unfold print, eprint. rewrite !bind_emit. cbn [fst].
    unfold requests. cbn [flat_map app]. fold requests. f_equal.
    destruct (messages_create w client (request model max_tokens s user_prompt))
      as [m|e|c r|e|e].
    + destruct (content_raises m) as [ce|]; [reflexivity|].
      destruct (content_list m) as [bs|].
      * destruct (truthy (first_text bs)); reflexivity.
      * destruct (text_attribute m); reflexivity.
    + reflexivity.
    + rewrite bind_emit, status_guidance_events. cbn [fst snd bind app].
      repeat match goal with
             | |- context [if ?b then _ else _] => destruct b
             end; reflexivity.
    + reflexivity.
    + reflexivity.
  - rewrite (call_without_system w client model max_tokens _ user_prompt T).
    destruct system_prompt as [s|]; [|reflexivity].
    cbn in T. destruct (String.eqb s ""); [reflexivity | discriminate].
Qed.

Lemma banner_not_processing (paths : list string) :
  ~ In Msg.response_banner (map Msg.processing paths).
Proof.
  intros H. apply in_map_iff in H. destruct H as (p & H & _). discriminate H.
Qed.

Lemma requests_setup w args key framework :
  requests (setup_events w args key framework) = [].
Proof.
  unfold setup_events. rewrite !requests_app, requests_file_events.
  unfold verbose_events. destruct (verbose args); reflexivity.
Qed.

Lemma requests_render o : requests (render o) = [].
Proof. destruct o; reflexivity. Qed.

(** X1. A run exits with status 0 exactly when it is ready and the
    remote-call operation returned a text; every other run exits with
    status 1. *)
Theorem exit_zero_iff_ready_and_text :
  forall (w : World) (args : Args),
    (exit_status (main w args) = 0%Z <->
     exists key client framework text,
       ready w args key client framework /\
       snd (call_of_main w args client framework) = Returned (Some text)) /\
    (exit_status (main w args) = 0%Z \/ exit_status (main w args) = 1%Z).
Proof.
  intros w args. split; [split|].
  - intros H. destruct (main_shape w args) as [T|k e E N C|k c d E N C U|k c f E N C F Z|k c f l o R Hc];
      try discriminate H.
    destruct o as [text|]; [|discriminate H].
    exists k, c, f, text. split; [exact R|]. now rewrite Hc.
  - intros (key & client & framework & text & R & Hc).
    now destruct (ready_run_prints w args key client framework R text Hc).
  - destruct (main_shape w args) as [T|k e E N C|k c d E N C U|k c f E N C F Z|k c f l o R Hc];
      try (now right).
    destruct o; [now left | now right].
Qed.

Lemma exit_zero_iff_ready_and_text_witness :
  exists key client framework text,
    ready Sample.w Inputs.mixed_args key client framework /\
    snd (call_of_main Sample.w Inputs.mixed_args client framework)
    = Returned (Some text).
Proof.
  apply (proj1 (exit_zero_iff_ready_and_text Sample.w Inputs.mixed_args)).
  vm_compute. reflexivity.
Defined.

(** X2. The banner of the response block is on standard output exactly
    when the run exits with status 0: a failing run never prints it. *)
Theorem banner_iff_exit_zero :
  forall (w : World) (args : Args),
    In Msg.response_banner (stdout (fst (main w args))) <->
    exit_status (main w args) = 0%Z.
Proof.
  intros w args.
  destruct (main_shape w args) as [T|k e E N C|k c d E N C U|k c f E N C F Z|k c f l o R Hc].
  - split; [intros [] | discriminate].
  - split; [intros [] | discriminate].
  - split; [intros [H|[]]; discriminate H | discriminate].
  - split; [|discriminate]. cbn [fst]. rewrite !stdout_app, stdout_file_events.
    intros H. exfalso.
    apply in_app_or in H. destruct H as [H|H].
    + destruct H as [H|[H|[]]]; discriminate H.
    + apply in_app_or in H. destruct H as [H|[]].
      now apply banner_not_processing in H.
  - cbn [fst]. rewrite !stdout_app.
    pose proof (stdout_call w c (model args) (max_tokens args) (Some f)
                  (user_prompt_of w (files args))) as S.
    unfold call_of_main in Hc. rewrite Hc in S. cbn [fst] in S. rewrite S.
    destruct o as [text|]; cbn [render render_status].
    + split; [reflexivity|]. intros _. apply in_or_app. right.
      apply in_or_app. right. now left.
    + split; [|discriminate]. intros H. exfalso.
      apply (banner_not_in_setup w args k f).
      change (stdout [Stderr Msg.failed_analysis]) with (@nil string) in H.
      rewrite app_nil_r in H. exact H.
Qed.

(** X3. No run fails silently: a run that exits with a status other than 0
    has printed at least one line on the diagnostic stream. *)
Theorem failing_run_prints_diagnostic :
  forall (w : World) (args : Args),
    exit_status (main w args) <> 0%Z ->
    stderr (fst (main w args)) <> [].
Proof.
  intros w args H.
  destruct (main_shape w args) as [T|k e E N C|k c d E N C U|k c f E N C F Z|k c f l o R Hc].
  - discriminate.
  - discriminate.
  - discriminate.
  - cbn [fst]. rewrite !stderr_app. intros X.
    apply app_eq_nil in X. destruct X as [_ X].
    apply app_eq_nil in X. destruct X as [_ X]. discriminate X.
  - destruct o as [text|]; [now elim H|].
    cbn [fst]. rewrite !stderr_app. intros X.
    apply app_eq_nil in X. destruct X as [_ X].
    apply app_eq_nil in X. destruct X as [_ X]. discriminate X.
Qed.

Lemma failing_run_prints_diagnostic_witness :
  stderr (fst (main Sample.w Inputs.unreadable_args)) <> [].
Proof.
  apply (failing_run_prints_diagnostic Sample.w Inputs.unreadable_args).
  vm_compute. discriminate.
Defined.

(** X4. Whatever happens, a run opens nothing, or the framework document
    alone, or the framework document and then each given path once, in the
    order of the command line; it opens no other file. *)
Theorem files_opened_by_a_run :
  forall (w : World) (args : Args),
    opened (fst (main w args)) = [] \/
    opened (fst (main w args)) = [CODEWAY_PROMPT_FILENAME w] \/
    opened (fst (main w args)) = CODEWAY_PROMPT_FILENAME w :: files args.
Proof.
  intros w args.
  destruct (main_shape w args) as [T|k e E N C|k c d E N C U|k c f E N C F Z|k c f l o R Hc].
  - now left.
  - now left.
  - right. now left.
  - right. right. cbn [fst]. rewrite !opened_app, opened_file_events.
    cbn. now rewrite app_nil_r.
  - right. right.
    assert (X : main w args =
                (setup_events w args k f ++ l ++ render o,
                 SystemExit (render_status o)))
      by (apply (main_ready w args k c f l o R Hc)).
    rewrite <- X. apply (ready_run_opens w args k c f R).
Qed.

(** X5. A run sends at most one request, whatever the service answers: it
    sends none, or it sends the one request that carries the framework
    document, which then is not empty, as system prompt and the assembled
    payload as the only user message. *)
Theorem at_most_one_request :
  forall (w : World) (args : Args),
    requests (fst (main w args)) = [] \/
    exists key client framework,
      ready w args key client framework /\ framework <> "" /\
      requests (fst (main w args)) =
        [ {| arg_model := model args;
             arg_max_tokens := max_tokens args;
             arg_messages :=
               [("user",
                 final_user_prompt
                   (length (successfully_read_files w (files args)))
                   (join nl (payload_segments w (files args))))];
             arg_system := framework |} ].
Proof.
  intros w args.
  destruct (main_shape w args) as [T|k e E N C|k c d E N C U|k c f E N C F Z|k c f l o R Hc].
  - now left.
  - now left.
  - now left.
  - left. cbn [fst]. rewrite !requests_app, requests_file_events. reflexivity.
  - cbn [fst]. rewrite !requests_app, requests_setup, requests_render, app_nil_r.
    cbn [app].
    pose proof (requests_call w c (model args) (max_tokens args) (Some f)
                  (user_prompt_of w (files args))) as Q.
    unfold call_of_main in Hc. rewrite Hc in Q. cbn [fst] in Q. rewrite Q.
    destruct (String.eqb_spec f "") as [->|Hf].
    + now left.
    + right. exists k, c, f. split; [exact R | split; [exact Hf | reflexivity]].
Qed.

(** X6. When the credential is set and the construction of the client
    raises, the run prints the error of the constructor, exits with status
    1, and has neither printed on standard output, nor opened a file, nor
    sent a request. *)
Theorem client_failure_exits_first :
  forall (w : World) (args : Args) key str_e,
    environ w API_KEY_ENV_VAR = Some key -> key <> "" ->
    Anthropic_new w key = inr str_e ->
    exit_status (main w args) = 1%Z /\
    stderr (fst (main w args)) = [Msg.client_error str_e] /\
    stdout (fst (main w args)) = [] /\
    opened (fst (main w args)) = [] /\
    requests (fst (main w args)) = [].
Proof.
  intros w args key str_e E N C.
  rewrite (main_without_client w args key str_e E N C). repeat split.
Qed.

Lemma client_failure_exits_first_witness :
  exit_status (main (with_client_failure Sample.w "bad key") Inputs.mixed_args) = 1%Z /\
  stderr (fst (main (with_client_failure Sample.w "bad key") Inputs.mixed_args))
  = [Msg.client_error "bad key"].
Proof.
  pose proof (client_failure_exits_first (with_client_failure Sample.w "bad key")
                Inputs.mixed_args "sk-test" "bad key") as H.
  destruct H as (H0 & H1 & _).
  - reflexivity.
  - discriminate.
  - reflexivity.
  - split; [exact H0 | exact H1].
Defined.

(** X7. [read_file_content] opens the file once and prints a diagnostic
    exactly when the read fails; [is_critical] changes nothing of that.  A
    read that is not critical always returns, the content or [None]; a
    critical read returns the content or exits with status 1, and never
    returns [None]. *)
Theorem read_file_content_outcomes :
  forall (w : World) (filepath : string),
    fst (read_file_content w filepath true) = fst (read_file_content w filepath false) /\
    opened (fst (read_file_content w filepath false)) = [filepath] /\
    (stderr (fst (read_file_content w filepath false)) = [] <-> readable w filepath) /\
    length (stderr (fst (read_file_content w filepath false))) <= 1 /\
    snd (read_file_content w filepath false) = Returned (file_content w filepath) /\
    snd (read_file_content w filepath true) =
      match file_content w filepath with
      | Some s => Returned (Some s)
      | None => SystemExit 1
      end /\
    snd (read_file_content w filepath true) <> Returned None.
Proof.
  intros w p. rewrite read_file_content_optional, read_file_content_critical.
  unfold readable, file_content.
  destruct (open_read w p) as [s| |e]; cbn.
  - repeat split; try lia; try discriminate. intros _. now exists s.
  - repeat split; try lia; try discriminate. intros [s H]. discriminate H.
  - repeat split; try lia; try discriminate. intros [s H]. discriminate H.
Qed.

(** X8. The remote-call operation never ends the process: it always returns
    a value.  It prints its one line on standard output, and it sends
    exactly one request when the system prompt is a string that is not
    empty, and none otherwise, whatever the service does. *)
Theorem call_claude_api_always_returns :
  forall (w : World) client model max_tokens system_prompt user_prompt,
    (exists o,
        snd (call_claude_api w client model max_tokens system_prompt user_prompt)
        = Returned o) /\
    stdout (fst (call_claude_api w client model max_tokens system_prompt user_prompt))
    = [Msg.sending model] /\
    requests (fst (call_claude_api w client model max_tokens system_prompt user_prompt))
    = (if truthy system_prompt
       then [ {| arg_model := model; arg_max_tokens := max_tokens;
                 arg_messages := [("user", user_prompt)];
                 arg_system := match system_prompt with
                               | Some s => s
                               | None => ""
                               end |} ]
       else []) /\
    opened (fst (call_claude_api w client model max_tokens system_prompt user_prompt))
    = [].
Proof.
  intros w client model max_tokens system_prompt user_prompt.
  split; [|split; [|split]].
  - destruct (call_claude_api_returns w client model max_tokens system_prompt
                user_prompt) as (l & o & E).
    exists o. now rewrite E.
  - apply stdout_call.
  - rewrite requests_call. destruct system_prompt as [s|]; [|reflexivity].
    cbn [truthy]. destruct (String.eqb s ""); reflexivity.
  - destruct (truthy system_prompt) eqn:T.
    + apply truthy_true in T. destruct T as (s & -> & Hs).
      rewrite (call_with_system w client model max_tokens s user_prompt Hs).
      unfold print, eprint. rewrite !bind_emit. cbn [fst].
      unfold opened. cbn [flat_map app]. fold opened.
      destruct (messages_create w client (request model max_tokens s user_prompt))
        as [m|e|c r|e|e].
      * destruct (content_raises m) as [ce|]; [reflexivity|].
        destruct (content_list m) as [bs|].
        -- destruct (truthy (first_text bs)); reflexivity.
        -- destruct (text_attribute m); reflexivity.
      * reflexivity.
      * rewrite bind_emit, status_guidance_events. cbn [fst snd bind app].
        repeat match goal with
               | |- context [if ?b then _ else _] => destruct b
               end; reflexivity.
      * reflexivity.
      * reflexivity.
    + now rewrite (call_without_system w client model max_tokens _ user_prompt T).
Qed.

(** X9. When [messages.create] raises a connection error, another error of
    the SDK or any other exception, the remote-call operation prints the one
    diagnostic of that arm, with the text of the exception, and returns the
    failure signal: nothing is sent again.  A ready run then ends with the
    failure notice and status 1. *)
Theorem raised_exception_is_failure :
  forall (w : World) (r : api_result) (diagnostic : string),
    raised_report r = Some diagnostic ->
    (forall client model max_tokens system user_prompt,
        system <> "" ->
        messages_create w client (request model max_tokens system user_prompt) = r ->
        call_claude_api w client model max_tokens (Some system) user_prompt =
          ([Stdout (Msg.sending model);
            Create client (request model max_tokens system user_prompt);
            Stderr diagnostic],
           Returned None)) /\
    (forall args key client framework,
        ready w args key client framework -> framework <> "" ->
        messages_create w client (request_of w args framework) = r ->
        exit_status (main w args) = 1%Z /\
        stderr (fst (main w args)) =
          stderr (setup_events w args key framework)
          ++ [diagnostic; Msg.failed_analysis] /\
        requests (fst (main w args)) = [request_of w args framework]).
Proof.
  intros w r diagnostic D.
  assert (C : forall client model max_tokens system user_prompt,
             system <> "" ->
             messages_create w client (request model max_tokens system user_prompt) = r ->
             call_claude_api w client model max_tokens (Some system) user_prompt =
               ([Stdout (Msg.sending model);
                 Create client (request model max_tokens system user_prompt);
                 Stderr diagnostic],
                Returned None)).
  { intros client model max_tokens system user_prompt Hs Ha.
    rewrite (call_with_system w client model max_tokens system user_prompt Hs), Ha.
    destruct r as [m|e|c x|e|e]; inversion D; subst diagnostic; reflexivity. }
  split; [exact C|].
  intros args key client framework R Hs Ha.
  pose proof (C client (model args) (max_tokens args) framework
                (user_prompt_of w (files args)) Hs Ha) as E.
  destruct (ready_run_fails w args key client framework R) as [X1 X2].
  { unfold call_of_main. now rewrite E. }
  split; [exact X1|]. split.
  - rewrite X2. unfold call_of_main. rewrite E. reflexivity.
  - apply (ready_run_sends_one_request w args key client framework R Hs).
Qed.

Lemma raised_exception_is_failure_witness :
  exit_status
    (main (answering Sample.w (RaiseAPIConnectionError "Connection error."))
          Inputs.mixed_args) = 1%Z.
Proof.
  pose proof (raised_exception_is_failure
                (answering Sample.w (RaiseAPIConnectionError "Connection error."))
                (RaiseAPIConnectionError "Connection error.")
                (Msg.connection_error "Connection error.")) as H.
  destruct H as [_ H].
  - reflexivity.
  - destruct (H Inputs.mixed_args "sk-test" Inputs.client "The Code Way.") as [H0 _].
    + apply sample_ready. now left.
    + discriminate.
    + reflexivity.
    + exact H0.
Defined.

(** X10. After a status error the remote-call operation prints the report
    and at most one hint.  For a status other than 400, 401 and 429 it
    prints the report alone; for 401 and 429 the hint does not depend on
    the detail of the server. *)
Theorem status_error_at_most_one_hint :
  forall (w : World) client model max_tokens system user_prompt
         (status_code : Z) (response : string),
    system <> "" ->
    messages_create w client (request model max_tokens system user_prompt)
    = RaiseAPIStatusError status_code response ->
    let diagnostics :=
      stderr (fst (call_claude_api w client model max_tokens (Some system)
                     user_prompt)) in
    (length diagnostics <= 2) /\
    hd_error diagnostics = Some (Msg.status_error status_code response) /\
    (status_code <> 400%Z -> status_code <> 401%Z -> status_code <> 429%Z ->
     diagnostics = [Msg.status_error status_code response]) /\
    (status_code = 401%Z ->
     diagnostics = [Msg.status_error status_code response; Msg.hint_credential]) /\
    (status_code = 429%Z ->
     diagnostics = [Msg.status_error status_code response; Msg.hint_rate_limit]).
Proof.
  intros w client model max_tokens system user_prompt status_code response Hs Ha
         diagnostics.
  subst diagnostics.
  rewrite (call_status_error w client model max_tokens system user_prompt
             status_code response Hs Ha).
  rewrite status_guidance_events. cbn [fst].
  unfold stderr. cbn [flat_map app]. fold stderr.
  destruct (Z.eqb_spec status_code 401) as [->|N1].
  { cbn. repeat split; try lia; intros; try reflexivity; lia. }
  destruct (Z.eqb_spec status_code 429) as [->|N2].
  { cbn. repeat split; try lia; intros; try reflexivity; lia. }
  destruct (Z.eqb_spec status_code 400) as [->|N3].
  { destruct (overflow_wording response); cbn;
      repeat split; try lia; intros; try reflexivity; lia. }
  cbn. repeat split; try lia; intros; try reflexivity; contradiction.
Qed.

Lemma status_error_at_most_one_hint_witness :
  stderr (fst (call_claude_api
                 (answering Sample.w (RaiseAPIStatusError 500 "<Response [500]>"))
                 Inputs.client DEFAULT_MODEL 4000 (Some "The Code Way.") "code"))
  = [Msg.status_error 500 "<Response [500]>"].
Proof.
  pose proof (status_error_at_most_one_hint
                (answering Sample.w (RaiseAPIStatusError 500 "<Response [500]>"))
                Inputs.client DEFAULT_MODEL 4000%Z "The Code Way." "code"
                500%Z "<Response [500]>") as H.
  cbv zeta in H. destruct H as (_ & _ & H & _).
  - discriminate.
  - reflexivity.
  - apply H; discriminate.
Defined.

(** ** Other shapes of the answer *)

(** X11. When the answer has a [content] attribute that is not a list
    with elements, and no [text] attribute, the remote-call operation
    prints the warning of the unexpected structure and then the answer
    itself, and returns the empty text; a ready run prints an empty
    response block and exits with status 0. *)
Theorem unrecognized_answer_is_empty_text :
  forall (w : World) (m : message),
    shape m = Unrecognized ->
    (forall client model max_tokens system user_prompt,
        system <> "" ->
        messages_create w client (request model max_tokens system user_prompt)
        = Answer m ->
        call_claude_api w client model max_tokens (Some system) user_prompt =
          ([Stdout (Msg.sending model);
            Create client (request model max_tokens system user_prompt);
            Stderr Msg.unexpected_structure;
            Stderr ("Full response object: " ++ message_str m)%string],
           Returned (Some ""))) /\
    (forall args key client framework,
        ready w args key client framework -> framework <> "" ->
        messages_create w client (request_of w args framework) = Answer m ->
        exit_status (main w args) = 0%Z /\
        stdout (fst (main w args)) =
          (stdout (setup_events w args key framework) ++ [Msg.sending (model args)])
          ++ [Msg.response_banner; ""; Msg.response_rule]).
Proof.
  intros w m Hm.
  assert (C : forall client model max_tokens system user_prompt,
             system <> "" ->
             messages_create w client (request model max_tokens system user_prompt)
             = Answer m ->
             call_claude_api w client model max_tokens (Some system) user_prompt =
               ([Stdout (Msg.sending model);
                 Create client (request model max_tokens system user_prompt);
                 Stderr Msg.unexpected_structure;
                 Stderr (Msg.full_response (message_str m))],
                Returned (Some ""))).
  { intros client model max_tokens system user_prompt Hs Ha.
    rewrite (call_with_system w client model max_tokens system user_prompt Hs), Ha.
    unfold content_raises, content_list, text_attribute. rewrite Hm. reflexivity. }
  split; [exact C|].
  intros args key client framework R Hs Ha.
  apply (ready_run_prints w args key client framework R "").
  unfold call_of_main.
  now rewrite (C client (model args) (max_tokens args) framework
                 (user_prompt_of w (files args)) Hs Ha).
Qed.

Lemma unrecognized_answer_is_empty_text_witness :
  exit_status
    (main (answering Sample.w
             (Answer {| shape := Unrecognized; message_str := "<object>" |}))
          Inputs.mixed_args) = 0%Z.
Proof.
  pose proof (unrecognized_answer_is_empty_text
                (answering Sample.w
                   (Answer {| shape := Unrecognized; message_str := "<object>" |}))
                {| shape := Unrecognized; message_str := "<object>" |}) as H.
  destruct H as [_ H].
  - reflexivity.
  - destruct (H Inputs.mixed_args "sk-test" Inputs.client "The Code Way.") as [H0 _].
    + apply sample_ready. now left.
    + discriminate.
    + reflexivity.
    + exact H0.
Defined.

(** X12. When the answer has a [content] attribute that is not a list
    with elements, and a [text] attribute, the remote-call operation
    returns the value of the [text] attribute as it is and prints no
    warning.  A ready run prints a
    text inside the banner and exits with status 0, also when the text is
    empty; a value [None] is taken for the failure signal, and the run
    exits with status 1 with the failure notice as its only diagnostic of
    the call. *)
Theorem bare_text_answer_is_returned :
  forall (w : World) (m : message) (text : option string),
    shape m = BareText text ->
    (forall client model max_tokens system user_prompt,
        system <> "" ->
        messages_create w client (request model max_tokens system user_prompt)
        = Answer m ->
        call_claude_api w client model max_tokens (Some system) user_prompt =
          ([Stdout (Msg.sending model);
            Create client (request model max_tokens system user_prompt)],
           Returned text)) /\
    (forall args key client framework,
        ready w args key client framework -> framework <> "" ->
        messages_create w client (request_of w args framework) = Answer m ->
        match text with
        | Some s =>
            exit_status (main w args) = 0%Z /\
            stdout (fst (main w args)) =
              (stdout (setup_events w args key framework)
               ++ [Msg.sending (model args)])
              ++ [Msg.response_banner; s; Msg.response_rule]
        | None =>
            exit_status (main w args) = 1%Z /\
            stderr (fst (main w args)) =
              stderr (setup_events w args key framework) ++ [Msg.failed_analysis]
        end).
Proof.
  intros w m text Hm.
  assert (C : forall client model max_tokens system user_prompt,
             system <> "" ->
             messages_create w client (request model max_tokens system user_prompt)
             = Answer m ->
             call_claude_api w client model max_tokens (Some system) user_prompt =
               ([Stdout (Msg.sending model);
                 Create client (request model max_tokens system user_prompt)],
                Returned text)).
  { intros client model max_tokens system user_prompt Hs Ha.
    rewrite (call_with_system w client model max_tokens system user_prompt Hs), Ha.
    unfold content_raises, content_list, text_attribute. rewrite Hm. reflexivity. }
  split; [exact C|].
  intros args key client framework R Hs Ha.
  pose proof (C client (model args) (max_tokens args) framework
                (user_prompt_of w (files args)) Hs Ha) as E.
  destruct text as [s|].
  - apply (ready_run_prints w args key client framework R s).
    unfold call_of_main. now rewrite E.
  - destruct (ready_run_fails w args key client framework R) as [X1 X2].
    { unfold call_of_main. now rewrite E. }
    split; [exact X1|]. rewrite X2. unfold call_of_main. rewrite E. reflexivity.
Qed.

Lemma bare_text_answer_is_returned_witness :
  exit_status
    (main (answering Sample.w
             (Answer {| shape := BareText None; message_str := "<object>" |}))
          Inputs.mixed_args) = 1%Z.
Proof.
  pose proof (bare_text_answer_is_returned
                (answering Sample.w
                   (Answer {| shape := BareText None; message_str := "<object>" |}))
                {| shape := BareText None; message_str := "<object>" |} None) as H.
  destruct H as [_ H].
  - reflexivity.
  - destruct (H Inputs.mixed_args "sk-test" Inputs.client "The Code Way.") as [H0 _].
    + apply sample_ready. now left.
    + discriminate.
    + reflexivity.
    + exact H0.
Defined.

(** X13. Of several blocks typed text the first one decides: when its text
    is not empty, the remote-call operation returns that text and prints no
    warning, whatever blocks come after it, and a ready run prints that
    text inside the banner. *)
Theorem first_text_block_wins :
  forall (w : World) (m : message) (before : list block) (b : block)
         (after : list block),
    shape m = ContentBlocks (before ++ b :: after) ->
    (forall e, In e before -> block_type e <> "text") ->
    block_type b = "text" -> block_text b <> "" ->
    (forall client model max_tokens system user_prompt,
        system <> "" ->
        messages_create w client (request model max_tokens system user_prompt)
        = Answer m ->
        call_claude_api w client model max_tokens (Some system) user_prompt =
          ([Stdout (Msg.sending model);
            Create client (request model max_tokens system user_prompt)],
           Returned (Some (block_text b)))) /\
    (forall args key client framework,
        ready w args key client framework -> framework <> "" ->
        messages_create w client (request_of w args framework) = Answer m ->
        exit_status (main w args) = 0%Z /\
        stdout (fst (main w args)) =
          (stdout (setup_events w args key framework) ++ [Msg.sending (model args)])
          ++ [Msg.response_banner; block_text b; Msg.response_rule]).
Proof.
  intros w m before b after Hm Hno Tb Xb.
  assert (F : first_text (before ++ b :: after) = Some (block_text b))
    by now apply first_text_found.
  assert (T : truthy (Some (block_text b)) = true)
    by (apply truthy_true; now exists (block_text b)).
  assert (C : forall client model max_tokens system user_prompt,
             system <> "" ->
             messages_create w client (request model max_tokens system user_prompt)
             = Answer m ->
             call_claude_api w client model max_tokens (Some system) user_prompt =
               ([Stdout (Msg.sending model);
                 Create client (request model max_tokens system user_prompt)],
                Returned (Some (block_text b)))).
  { intros client model max_tokens system user_prompt Hs Ha.
    rewrite (call_blocks w client model max_tokens system user_prompt m _ Hs Ha Hm).
    rewrite F, T. destruct before; reflexivity. }
  split; [exact C|].
  intros args key client framework R Hs Ha.
  apply (ready_run_prints w args key client framework R (block_text b)).
  unfold call_of_main.
  now rewrite (C client (model args) (max_tokens args) framework
                 (user_prompt_of w (files args)) Hs Ha).
Qed.

Lemma first_text_block_wins_witness :
  snd (call_claude_api
         (answering Sample.w
            (Answer {| shape := ContentBlocks
                                  [ {| block_type := "thinking"; block_text := "hm" |};
                                    {| block_type := "text"; block_text := "first" |};
                                    {| block_type := "text"; block_text := "second" |} ];
                       message_str := "Message(...)" |}))
         Inputs.client DEFAULT_MODEL 4000 (Some "The Code Way.") "code")
  = Returned (Some "first").
Proof.
  pose proof (first_text_block_wins
                (answering Sample.w
                   (Answer {| shape := ContentBlocks
                                  [ {| block_type := "thinking"; block_text := "hm" |};
                                    {| block_type := "text"; block_text := "first" |};
                                    {| block_type := "text"; block_text := "second" |} ];
                              message_str := "Message(...)" |}))
                {| shape := ContentBlocks
                              [ {| block_type := "thinking"; block_text := "hm" |};
                                {| block_type := "text"; block_text := "first" |};
                                {| block_type := "text"; block_text := "second" |} ];
                   message_str := "Message(...)" |}
                [ {| block_type := "thinking"; block_text := "hm" |} ]
                {| block_type := "text"; block_text := "first" |}
                [ {| block_type := "text"; block_text := "second" |} ]) as H.
  destruct H as [H _].
  - reflexivity.
  - intros e [<-|[]]. vm_compute. discriminate.
  - reflexivity.
  - discriminate.
  - rewrite (H Inputs.client DEFAULT_MODEL 4000%Z "The Code Way." "code").
    + reflexivity.
    + discriminate.
    + reflexivity.
Defined.

(** ** Verbose output *)

Lemma verbose_events_silent w args framework :
  stderr (verbose_events w args framework) = [] /\
  requests (verbose_events w args framework) = [] /\
  opened (verbose_events w args framework) = [].
Proof. unfold verbose_events. destruct (verbose args); repeat split. Qed.

Lemma setup_events_verbose w args v key framework :
  stderr (setup_events w (with_verbose args v) key framework)
  = stderr (setup_events w args key framework) /\
  requests (setup_events w (with_verbose args v) key framework)
  = requests (setup_events w args key framework) /\
  opened (setup_events w (with_verbose args v) key framework)
  = opened (setup_events w args key framework).
Proof.
  unfold setup_events. rewrite !stderr_app, !requests_app, !opened_app.
  destruct (verbose_events_silent w args framework) as (A1 & A2 & A3).
  destruct (verbose_events_silent w (with_verbose args v) framework) as (B1 & B2 & B3).
  rewrite A1, A2, A3, B1, B2, B3. repeat split.
Qed.

(** A run that stops before the loop over the files does not look at the
    command line. *)
Lemma main_without_framework_any_args w args args' key client :
  environ w API_KEY_ENV_VAR = Some key -> key <> "" ->
  Anthropic_new w key = inl client ->
  unreadable w (CODEWAY_PROMPT_FILENAME w) ->
  main w args = main w args'.
Proof.
  intros E N C U.
  rewrite (main_with_client w args key client E N C).
  rewrite (main_with_client w args' key client E N C).
  rewrite !bind_returned. unfold print. rewrite !bind_emit.
  rewrite read_file_content_critical.
  destruct (open_read w (CODEWAY_PROMPT_FILENAME w)) as [s| |e] eqn:F.
  - now elim (U s).
  - reflexivity.
  - reflexivity.
Qed.

(** X14. [--verbose] changes standard output only: with it or without it a
    run ends with the same status, prints the same diagnostics, opens the
    same files and sends the same request. *)
Theorem verbose_changes_only_stdout :
  forall (w : World) (args : Args) (v : bool),
    snd (main w (with_verbose args v)) = snd (main w args) /\
    stderr (fst (main w (with_verbose args v))) = stderr (fst (main w args)) /\
    requests (fst (main w (with_verbose args v))) = requests (fst (main w args)) /\
    opened (fst (main w (with_verbose args v))) = opened (fst (main w args)).
Proof.
  intros w args v.
  destruct (truthy (environ w API_KEY_ENV_VAR)) eqn:T.
  - apply truthy_true in T. destruct T as (key & E & N).
    destruct (Anthropic_new w key) as [client|str_e] eqn:C.
    + destruct (open_read w (CODEWAY_PROMPT_FILENAME w)) as [fw| |e] eqn:F.
      * destruct (successfully_read_files w (files args)) as [|x r] eqn:Z.
        -- rewrite (main_without_files w args key client fw E N C F Z).
           rewrite (main_without_files w (with_verbose args v) key client fw
                      E N C F Z).
           repeat split.
        -- destruct (successfully_read_inv w (files args)) as (p & Hin & Hr).
           { rewrite Z. discriminate. }
           destruct (call_claude_api_returns w client (model args) (max_tokens args)
                       (Some fw) (user_prompt_of w (files args))) as (l & o & Hc).
           assert (R : ready w args key client fw).
           { repeat split; try assumption. now exists p. }
           assert (R' : ready w (with_verbose args v) key client fw) by exact R.
           rewrite (main_ready w args key client fw l o R Hc).
           rewrite (main_ready w (with_verbose args v) key client fw l o R' Hc).
           cbn [fst snd].
           rewrite !stderr_app, !requests_app, !opened_app.
           destruct (setup_events_verbose w args v key fw) as (S1 & S2 & S3).
           rewrite S1, S2, S3. repeat split.
      * assert (U : unreadable w (CODEWAY_PROMPT_FILENAME w)).
        { intros s. rewrite F. discriminate. }
        rewrite (main_without_framework_any_args w (with_verbose args v) args
                   key client E N C U).
        repeat split.
      * assert (U : unreadable w (CODEWAY_PROMPT_FILENAME w)).
        { intros s. rewrite F. discriminate. }
        rewrite (main_without_framework_any_args w (with_verbose args v) args
                   key client E N C U).
        repeat split.
    + rewrite (main_without_client w args key str_e E N C).
      rewrite (main_without_client w (with_verbose args v) key str_e E N C).
      repeat split.
  - rewrite (main_without_key w args T).
    rewrite (main_without_key w (with_verbose args v) T).
    repeat split.
Qed.

Lemma take_length (n : nat) (s : string) :
  String.length (take n s) = Nat.min n (String.length s).
Proof.
  unfold take. revert n. induction s as [|c s IH]; intros [|n]; cbn; try reflexivity.
  now rewrite IH.
Qed.

Lemma take_prefix (n : nat) (s : string) :
  exists rest, s = (take n s ++ rest)%string.
Proof.
  unfold take. revert n. induction s as [|c s IH]; intros [|n]; cbn.
  - now exists "".
  - now exists "".
  - now exists (String c s).
  - destruct (IH n) as [rest E]. exists rest. now rewrite <- E.
Qed.

(** X15. A ready run with [--verbose] prints, before the request is sent,
    a preview of the framework document and the whole user prompt it is
    about to send.  The preview holds the first 500 characters of the
    document, or all of it when it is shorter. *)
Theorem verbose_preview :
  forall (w : World) (args : Args) key client framework,
    ready w args key client framework ->
    verbose args = true ->
    let preview := take 500 framework in
    (exists before after,
        stdout (fst (main w args)) =
          before ++
          [ Msg.prompts_being_sent;
            ("[SYSTEM PROMPT from " ++ CODEWAY_PROMPT_FILENAME w ++ "]:" ++ nl
             ++ preview ++ "... (truncated)")%string;
            Msg.user_prompt_heading;
            user_prompt_of w (files args);
            Msg.prompts_rule;
            Msg.sending (model args) ] ++ after) /\
    String.length preview = Nat.min 500 (String.length framework) /\
    (exists rest, framework = (preview ++ rest)%string).
Proof.
  intros w args key client framework R V preview.
  split; [|split; [apply take_length | apply take_prefix]].
  destruct (call_claude_api_returns w client (model args) (max_tokens args)
              (Some framework) (user_prompt_of w (files args))) as (l & o & Hc).
  pose proof (stdout_call w client (model args) (max_tokens args)
                (Some framework) (user_prompt_of w (files args))) as S.
  rewrite Hc in S. cbn [fst] in S.
  rewrite (main_ready w args key client framework l o R Hc). cbn [fst].
  rewrite !stdout_app, S, stdout_setup. unfold verbose_events. rewrite V.
  exists ([Msg.reading_framework (CODEWAY_PROMPT_FILENAME w); Msg.reading_code_files]
          ++ map Msg.processing (files args)
          ++ [Msg.successfully_read (length (successfully_read_files w (files args)))]),
         (stdout (render o)).
  rewrite <- !app_assoc. reflexivity.
Qed.

Lemma verbose_preview_witness :
  String.length (take 500 "The Code Way.") = 13.
Proof.
  pose proof (verbose_preview Sample.w Inputs.mixed_args "sk-test" Inputs.client
                "The Code Way.") as H.
  cbv zeta in H. destruct H as (_ & H & _).
  - apply (sample_ready (Answer {| shape := Unrecognized; message_str := "" |})).
    now left.
  - reflexivity.
  - rewrite H. reflexivity.
Defined.

(** ** Base names and markers *)

Lemma substring_to_end (s : string) :
  forall n m, String.length s <= n + m ->
              String.substring n m s = String.substring n (String.length s) s.
Proof.
  induction s as [|c s IH]; intros n m H.
  - destruct n, m; reflexivity.
  - destruct n as [|n].
    + destruct m as [|m]; cbn in H; [lia|].
      cbn. f_equal. apply IH. lia.
    + cbn. rewrite (IH n m) by (cbn in H; lia).
      rewrite (IH n (S (String.length s))) by lia. reflexivity.
Qed.

Lemma drop_cons (a : ascii) (r : string) (i : nat) :
  drop (S i) (String a r) = drop i r.
Proof.
  unfold drop. cbn. apply substring_to_end. lia.
Qed.

Lemma drop_zero (s : string) : drop 0 s = s.
Proof.
  unfold drop. induction s as [|c s IH]; cbn; [reflexivity | now rewrite IH].
Qed.

Lemma rfind_lower_bound (c : ascii) (s : string) : (-1 <= rfind c s)%Z.
Proof.
  induction s as [|a r IH]; cbn; [lia|].
  destruct (Z.leb_spec 0 (rfind c r)); [lia|].
  destruct (Ascii.eqb a c); lia.
Qed.

Lemma rfind_none_iff (c : ascii) (s : string) :
  rfind c s = (-1)%Z <-> ~ In c (list_ascii_of_string s).
Proof.
  induction s as [|a r IH]; cbn.
  - split; [intros _ [] | reflexivity].
  - pose proof (rfind_lower_bound c r) as B.
    destruct (Z.leb_spec 0 (rfind c r)) as [L|L].
    + split; [lia|]. intros H. exfalso.
      assert (X : rfind c r <> (-1)%Z) by lia.
      apply X, IH. intros I. apply H. now right.
    + assert (X : rfind c r = (-1)%Z) by lia.
      destruct (Ascii.eqb_spec a c) as [->|Na].
      * split; [discriminate|]. intros H. exfalso. apply H. now left.
      * split; [|reflexivity]. intros _ [I|I]; [contradiction|].
        now apply (proj1 IH X).
Qed.

Lemma basename_cons (a : ascii) (r : string) :
  basename (String a r) =
    if (0 <=? rfind "/" r)%Z then basename r
    else if Ascii.eqb a "/" then r else String a r.
Proof.
  unfold basename. cbn [rfind].
  pose proof (rfind_lower_bound "/" r) as B.
  destruct (Z.leb_spec 0 (rfind "/" r)) as [L|L].
  - replace (Z.to_nat (rfind "/" r + 1 + 1)) with (S (Z.to_nat (rfind "/" r + 1)))
      by lia.
    apply drop_cons.
  - destruct (Ascii.eqb a "/").
    + change (Z.to_nat (0 + 1)) with 1. rewrite drop_cons. apply drop_zero.
    + change (Z.to_nat (-1 + 1)) with 0. apply drop_zero.
Qed.

Lemma basename_without_slash (name : string) :
  rfind "/" name = (-1)%Z -> basename name = name.
Proof.
  intros H. unfold basename. rewrite H. apply drop_zero.
Qed.

Lemma rfind_with_slash (dir name : string) :
  (0 <= rfind "/" (dir ++ String "/" name))%Z.
Proof.
  induction dir as [|a dir IH]; cbn [append rfind].
  - pose proof (rfind_lower_bound "/" name).
    destruct (Z.leb_spec 0 (rfind "/" name)); [lia|]. cbn. lia.
  - destruct (Z.leb_spec 0 (rfind "/" (dir ++ String "/" name))); lia.
Qed.

Lemma basename_of_path (dir name : string) :
  basename (dir ++ String "/" name) = basename name.
Proof.
  induction dir as [|a dir IH]; cbn [append]; rewrite basename_cons.
  - destruct (Z.leb_spec 0 (rfind "/" name)) as [L|L]; [reflexivity|].
    cbn. symmetry. apply basename_without_slash.
    pose proof (rfind_lower_bound "/" name). lia.
  - pose proof (rfind_with_slash dir name) as P.
    destruct (Z.leb_spec 0 (rfind "/" (dir ++ String "/" name))); [exact IH | lia].
Qed.

Lemma basename_has_no_slash (p : string) : rfind "/" (basename p) = (-1)%Z.
Proof.
  induction p as [|a r IH]; [reflexivity|].
  rewrite basename_cons.
  pose proof (rfind_lower_bound "/" r) as B.
  destruct (Z.leb_spec 0 (rfind "/" r)) as [L|L]; [exact IH|].
  assert (X : rfind "/" r = (-1)%Z) by lia.
  destruct (Ascii.eqb a "/") eqn:A; [exact X|].
  cbn [rfind]. rewrite X, A. reflexivity.
Qed.

(** X16. The markers of a file name it by the part of its path after the
    last slash: that name holds no slash, a path without a slash names
    itself, and a directory in front of a path changes nothing.  So two
    files of the same name in different directories, with the same
    content, give the same three segments. *)
Theorem markers_name_the_last_component :
  forall (dir dir' name content : string),
    basename (dir ++ "/" ++ name) = basename name /\
    ~ In "/"%char (list_ascii_of_string (basename name)) /\
    (~ In "/"%char (list_ascii_of_string name) -> basename name = name) /\
    three_segments ((dir ++ "/" ++ name)%string, content)
    = three_segments ((dir' ++ "/" ++ name)%string, content).
Proof.
  intros dir dir' name content.
  split; [|split; [|split]].
  - apply basename_of_path.
  - apply rfind_none_iff, basename_has_no_slash.
  - intros H. apply basename_without_slash. now apply rfind_none_iff.
  - unfold three_segments. cbn [fst snd].
    change (dir ++ "/" ++ name)%string with (dir ++ String "/" name)%string.
    change (dir' ++ "/" ++ name)%string with (dir' ++ String "/" name)%string.
    now rewrite !basename_of_path.
Qed.

Lemma markers_name_the_last_component_witness :
  basename "b.py" = "b.py".
Proof.
  destruct (markers_name_the_last_component "src" "lib" "b.py" "x = 2")
    as (_ & _ & H & _).
  apply H. vm_compute. intros [H0|[H0|[H0|[H0|[]]]]]; discriminate H0.
Defined.

(** X17. A path that fails to read adds nothing to what is sent: the
    segments, the count of files and the user prompt are those of the
    command line without that path. *)
Theorem unreadable_path_adds_nothing :
  forall (w : World) (earlier later : list string) (p : string),
    unreadable w p ->
    payload_segments w (earlier ++ p :: later) = payload_segments w (earlier ++ later) /\
    snd (read_code_files w (earlier ++ p :: later) [] 0)
    = snd (read_code_files w (earlier ++ later) [] 0) /\
    user_prompt_of w (earlier ++ p :: later) = user_prompt_of w (earlier ++ later).
Proof.
  intros w earlier later p U.
  assert (S : successfully_read_files w (earlier ++ p :: later) =
              successfully_read_files w (earlier ++ later)).
  { rewrite !successfully_read_app. f_equal.
    unfold successfully_read_files. cbn [flat_map].
    now rewrite (proj1 (file_content_unreadable w p) U). }
  assert (P : payload_segments w (earlier ++ p :: later) =
              payload_segments w (earlier ++ later)).
  { unfold payload_segments. now rewrite S. }
  split; [exact P|]. split.
  - rewrite !read_code_files_spec. cbn [snd]. now rewrite P, S.
  - unfold user_prompt_of, combined_code_text. now rewrite P, S.
Qed.

Lemma unreadable_path_adds_nothing_witness :
  user_prompt_of Sample.w ["src/a.py"; "missing.py"; "b.py"]
  = user_prompt_of Sample.w ["src/a.py"; "b.py"].
Proof.
  destruct (unreadable_path_adds_nothing Sample.w ["src/a.py"] ["b.py"] "missing.py")
    as (_ & _ & H).
  - intros s. vm_compute. discriminate.
  - exact H.
Defined.

(** ** The credential *)

(** With the same answers of the service, the remote-call operation does
    the same for two clients, but for the client named in the request
    event. *)
Lemma call_same_answers w client client' model max_tokens system_prompt user_prompt :
  (forall a, messages_create w client a = messages_create w client' a) ->
  let r := call_claude_api w client model max_tokens system_prompt user_prompt in
  let r' := call_claude_api w client' model max_tokens system_prompt user_prompt in
  snd r = snd r' /\ stdout (fst r) = stdout (fst r') /\
  stderr (fst r) = stderr (fst r') /\ requests (fst r) = requests (fst r') /\
  opened (fst r) = opened (fst r').
Proof.
  intros H r r'. subst r r'.
  destruct (truthy system_prompt) eqn:T.
  - apply truthy_true in T. destruct T as (s & -> & Hs).
    rewrite (call_with_system w client model max_tokens s user_prompt Hs).
    rewrite (call_with_system w client' model max_tokens s user_prompt Hs).
    rewrite H. unfold print. rewrite !bind_emit. cbn [fst snd].
    repeat split.
  - rewrite !(call_without_system w _ model max_tokens _ user_prompt T).
    repeat split.
Qed.

(** X19. The value of the credential reaches the constructor of the client
    and nothing else: two runs that differ in the value of the credential
    only, and in which the SDK builds a client for either value and answers
    both clients alike, end with the same status and have the same standard
    output, the same diagnostics, the same files opened and the same
    request. *)
Theorem credential_value_is_not_observable :
  forall (w : World) (args : Args) key key' client client',
    key <> "" -> key' <> "" ->
    Anthropic_new w key = inl client ->
    Anthropic_new w key' = inl client' ->
    (forall a, messages_create w client a = messages_create w client' a) ->
    snd (main (with_key w key) args) = snd (main (with_key w key') args) /\
    stdout (fst (main (with_key w key) args))
    = stdout (fst (main (with_key w key') args)) /\
    stderr (fst (main (with_key w key) args))
    = stderr (fst (main (with_key w key') args)) /\
    opened (fst (main (with_key w key) args))
    = opened (fst (main (with_key w key') args)) /\
    requests (fst (main (with_key w key) args))
    = requests (fst (main (with_key w key') args)).
Proof.
  intros w args key key' client client' N N' C C' H.
  assert (E : forall k, environ (with_key w k) API_KEY_ENV_VAR = Some k)
    by reflexivity.
  destruct (open_read w (CODEWAY_PROMPT_FILENAME w)) as [fw| |e] eqn:F.
  - destruct (successfully_read_files w (files args)) as [|x r] eqn:Z.
    + rewrite (main_without_files (with_key w key) args key client fw
                 (E key) N C F Z).
      rewrite (main_without_files (with_key w key') args key' client' fw
                 (E key') N' C' F Z).
      repeat split.
    + destruct (successfully_read_inv w (files args)) as (p & Hin & Hr).
      { rewrite Z. discriminate. }
      destruct (call_claude_api_returns w client (model args) (max_tokens args)
                  (Some fw) (user_prompt_of w (files args))) as (l & o & Hc).
      destruct (call_claude_api_returns w client' (model args) (max_tokens args)
                  (Some fw) (user_prompt_of w (files args))) as (l' & o' & Hc').
      pose proof (call_same_answers w client client' (model args) (max_tokens args)
                    (Some fw) (user_prompt_of w (files args)) H) as S.
      cbv zeta in S. rewrite Hc, Hc' in S. cbn [fst snd] in S.
      destruct S as (S0 & S1 & S2 & S3 & S4). inversion S0; subst o'.
      assert (R : ready (with_key w key) args key client fw).
      { repeat split; try assumption. now exists p. }
      assert (R' : ready (with_key w key') args key' client' fw).
      { repeat split; try assumption. now exists p. }
      rewrite (main_ready (with_key w key) args key client fw l o R Hc).
      rewrite (main_ready (with_key w key') args key' client' fw l' o R' Hc').
      cbn [fst snd].
      rewrite !stdout_app, !stderr_app, !opened_app, !requests_app.
      rewrite S1, S2, S3, S4. repeat split.
  - assert (U : unreadable w (CODEWAY_PROMPT_FILENAME w)).
    { intros s. rewrite F. discriminate. }
    destruct (main_without_framework (with_key w key) args key client
                (E key) N C U) as [d M].
    destruct (main_without_framework (with_key w key') args key' client'
                (E key') N' C' U) as [d' M'].
    assert (D : d = d').
    { pose proof (main_with_client (with_key w key) args key client (E key) N C) as X.
      pose proof (main_with_client (with_key w key') args key' client' (E key') N' C')
        as X'.
      rewrite M in X. rewrite M' in X'.
      rewrite bind_returned in X, X'. unfold print in X, X'.
      rewrite bind_emit, read_file_content_critical in X.
      rewrite bind_emit, read_file_content_critical in X'.
      cbn [open_read with_key CODEWAY_PROMPT_FILENAME] in X, X'.
      rewrite F in X, X'. cbn in X, X'. congruence. }
    rewrite M, M', D. repeat split.
  - assert (U : unreadable w (CODEWAY_PROMPT_FILENAME w)).
    { intros s. rewrite F. discriminate. }
    destruct (main_without_framework (with_key w key) args key client
                (E key) N C U) as [d M].
    destruct (main_without_framework (with_key w key') args key' client'
                (E key') N' C' U) as [d' M'].
    assert (D : d = d').
    { pose proof (main_with_client (with_key w key) args key client (E key) N C) as X.
      pose proof (main_with_client (with_key w key') args key' client' (E key') N' C')
        as X'.
      rewrite M in X. rewrite M' in X'.
      rewrite bind_returned in X, X'. unfold print in X, X'.
      rewrite bind_emit, read_file_content_critical in X.
      rewrite bind_emit, read_file_content_critical in X'.
      cbn [open_read with_key CODEWAY_PROMPT_FILENAME] in X, X'.
      rewrite F in X, X'. cbn in X, X'. congruence. }
    rewrite M, M', D. repeat split.
Qed.

Lemma credential_value_is_not_observable_witness :
  stdout (fst (main (with_key Sample.w "sk-one") Inputs.mixed_args))
  = stdout (fst (main (with_key Sample.w "sk-two") Inputs.mixed_args)).
Proof.
  destruct (credential_value_is_not_observable Sample.w Inputs.mixed_args
              "sk-one" "sk-two"
              {| client_api_key := "sk-one" |} {| client_api_key := "sk-two" |})
    as (_ & H & _).
  - discriminate.
  - discriminate.
  - reflexivity.
  - reflexivity.
  - intros a. reflexivity.
  - exact H.
Defined.

(** ** The counter of the loop *)

Lemma successfully_read_length_le w paths :
  length (successfully_read_files w paths) <= length paths.
Proof.
  induction paths as [|p rest IH]; [apply Nat.le_refl|].
  unfold successfully_read_files in *. cbn [flat_map]. rewrite length_app.
  destruct (file_content w p); cbn [length]; lia.
Qed.

Lemma payload_segments_length w paths :
  length (payload_segments w paths) = 3 * length (successfully_read_files w paths).
Proof.
  unfold payload_segments.
  induction (successfully_read_files w paths) as [|f fs IH]; [reflexivity|].
  cbn [flat_map]. rewrite length_app, IH. cbn [three_segments length]. lia.
Qed.

(** X20. The loop over the given paths returns a counter that is the number
    of paths that read, at most the number of paths given, and zero exactly
    when no path reads; it returns three segments for each file counted. *)
Theorem loop_counts_files_read :
  forall (w : World) (paths : list string),
    exists segments count,
      snd (read_code_files w paths [] 0) = Returned (segments, count) /\
      count = length (successfully_read_files w paths) /\
      count <= length paths /\
      length segments = 3 * count /\
      (count = 0 <-> forall p, In p paths -> unreadable w p).
Proof.
  intros w paths.
  exists (payload_segments w paths), (length (successfully_read_files w paths)).
  rewrite read_code_files_spec. cbn [snd app Nat.add].
  split; [reflexivity|]. split; [reflexivity|].
  split; [apply successfully_read_length_le|].
  split; [apply payload_segments_length|].
  split.
  - intros Z p Hin s Hs.
    apply (successfully_read_some w paths p Hin); [now exists s | exact Z].
  - intros H. now rewrite (successfully_read_none w paths H).
Qed.

(** ** An answer without content *)

(** X21. When the answer has no [content] attribute, reading it raises, the
    last exception arm of the remote-call operation prints the diagnostic
    of the unexpected error with the text of the exception, whether or not
    the answer has a [text] attribute, and the operation returns the
    failure signal; a ready run then ends with the failure notice and
    status 1. *)
Theorem answer_without_content_is_failure :
  forall (w : World) (m : message) (str_e : string),
    shape m = NoContent str_e ->
    (forall client model max_tokens system user_prompt,
        system <> "" ->
        messages_create w client (request model max_tokens system user_prompt)
        = Answer m ->
        call_claude_api w client model max_tokens (Some system) user_prompt =
          ([Stdout (Msg.sending model);
            Create client (request model max_tokens system user_prompt);
            Stderr (Msg.warn ++ "An unexpected error occurred during API call: "
                    ++ str_e)%string],
           Returned None)) /\
    (forall args key client framework,
        ready w args key client framework -> framework <> "" ->
        messages_create w client (request_of w args framework) = Answer m ->
        exit_status (main w args) = 1%Z /\
        stderr (fst (main w args)) =
          stderr (setup_events w args key framework)
          ++ [Msg.unexpected_error str_e; Msg.failed_analysis]).
Proof.
  intros w m str_e Hm.
  assert (C : forall client model max_tokens system user_prompt,
             system <> "" ->
             messages_create w client (request model max_tokens system user_prompt)
             = Answer m ->
             call_claude_api w client model max_tokens (Some system) user_prompt =
               ([Stdout (Msg.sending model);
                 Create client (request model max_tokens system user_prompt);
                 Stderr (Msg.unexpected_error str_e)],
                Returned None)).
  { intros client model max_tokens system user_prompt Hs Ha.
    rewrite (call_with_system w client model max_tokens system user_prompt Hs), Ha.
    unfold content_raises. rewrite Hm. reflexivity. }
  split; [exact C|].
  intros args key client framework R Hs Ha.
  pose proof (C client (model args) (max_tokens args) framework
                (user_prompt_of w (files args)) Hs Ha) as E.
  destruct (ready_run_fails w args key client framework R) as [X1 X2].
  { unfold call_of_main. now rewrite E. }
  split; [exact X1|]. rewrite X2. unfold call_of_main. rewrite E. reflexivity.
Qed.

Lemma answer_without_content_is_failure_witness :
  exit_status
    (main (answering Sample.w
             (Answer {| shape := NoContent "'list' object has no attribute 'content'";
                        message_str := "[1, 2]" |}))
          Inputs.mixed_args) = 1%Z.
Proof.
  pose proof (answer_without_content_is_failure
                (answering Sample.w
                   (Answer {| shape := NoContent "'list' object has no attribute 'content'";
                              message_str := "[1, 2]" |}))
                {| shape := NoContent "'list' object has no attribute 'content'";
                   message_str := "[1, 2]" |}
                "'list' object has no attribute 'content'") as H.
  destruct H as [_ H].
  - reflexivity.
  - destruct (H Inputs.mixed_args "sk-test" Inputs.client "The Code Way.") as [H0 _].
    + apply sample_ready. now left.
    + discriminate.
    + reflexivity.
    + exact H0.
Defined.
